(** * The MCP server factory of MCP-data-inclusion

    A shallow embedding of [src/mcp_server/factory.py] (class [MCPFactory])
    and of [src/utils.py] ([create_api_client]), with the properties of the
    route selection, of the tool-name table, of the build order and of the
    error paths.

    Python objects are modelled by the data the factory can observe:
    - values read from JSON documents are terms of [json];
    - an exception is a class (with its method resolution order) and a
      message;
    - a method of [MCPFactory] is a computation [M A] that reads and updates
      the attributes of [self] and either returns a value or raises;
    - the components the factory calls but does not define (the file system,
      [json], [OpenAPILoader], [create_auth_handler], [httpx], [FastMCP],
      [ToolTransformer]) are the fields of an environment [Env]. *)

From Stdlib Require Import QArith.
From stdpp Require Import gmap strings list sorting pretty.

Set Warnings "-register-all".
Close Scope Q_scope.

(** ** Python values *)

Module Py.

(** Values as [json.load] produces them: [None], [bool], [int], [float],
    [str], [list] and [dict] with string keys.  Non-finite floats are left
    out. *)
Inductive json :=
  | JNull
  | JBool (b : bool)
  | JInt (z : Z)
  | JFloat (q : Q)
  | JStr (s : string)
  | JArr (l : list json)
  | JObj (m : gmap string json).

(** The empty dictionary [{}] and the empty list [[]]. *)
Definition empty_dict : json := JObj ∅.
Definition empty_list : json := JArr [].

(** Truth value testing ([bool(v)], as [if v] and [not v] use it). *)
Definition truthy (v : json) : bool :=
  match v with
  | JNull => false
  | JBool b => b
  | JInt z => negb (z =? 0)%Z
  | JFloat q => negb (Qeq_bool q 0%Q)
  | JStr s => negb (String.eqb s "")
  | JArr l => match l with [] => false | _ :: _ => true end
  | JObj m => negb (bool_decide (dom m = ∅))
  end.

(** Truth value of an attribute that is [None] or a string. *)
Definition truthy_str (o : option string) : bool :=
  match o with
  | None => false
  | Some s => negb (String.eqb s "")
  end.

(** Truth value of an attribute that is [None] or a list. *)
Definition truthy_list {A} (o : option (list A)) : bool :=
  match o with
  | None | Some [] => false
  | Some (_ :: _) => true
  end.

(** Truth value of an attribute that is [None] or a JSON value. *)
Definition truthy_opt (o : option json) : bool :=
  match o with
  | None => false
  | Some v => truthy v
  end.

(** [isinstance(v, list)]. *)
Definition is_list (v : json) : bool :=
  match v with JArr _ => true | _ => false end.

(** [needle in haystack] between two strings: substring search. *)
Fixpoint is_substring (needle haystack : string) : bool :=
  String.prefix needle haystack ||
  match haystack with
  | EmptyString => false
  | String _ rest => is_substring needle rest
  end.

(** [v == s] for a string [s]. *)
Definition eq_str (s : string) (v : json) : bool :=
  match v with JStr t => String.eqb s t | _ => false end.

(** ** Exceptions *)

(** The exception classes that occur in the factory or that its callees are
    known to raise; [LibraryError n] stands for a class [n] defined by a
    third-party library directly under [Exception].  [KeyboardInterrupt],
    [SystemExit], [GeneratorExit] and [asyncio.CancelledError] derive from
    [BaseException] and not from [Exception]. *)
Inductive exn_class :=
  | BaseException
  | KeyboardInterrupt
  | SystemExit
  | GeneratorExit
  | CancelledError
  | Exception
  | ValueError
  | TypeError
  | AttributeError
  | LookupError
  | KeyError
  | IndexError
  | OSError
  | FileNotFoundError
  | PermissionError
  | IsADirectoryError
  | UnicodeError
  | UnicodeDecodeError
  | JSONDecodeError
  | RuntimeError
  | RecursionError
  | LibraryError (n : string).

#[export] Instance exn_class_eq_dec : EqDecision exn_class.
Proof. solve_decision. Defined.

(** Method resolution order of a class, up to [BaseException]. *)
Definition mro (c : exn_class) : list exn_class :=
  match c with
  | BaseException => [BaseException]
  | KeyboardInterrupt => [KeyboardInterrupt; BaseException]
  | SystemExit => [SystemExit; BaseException]
  | GeneratorExit => [GeneratorExit; BaseException]
  | CancelledError => [CancelledError; BaseException]
  | Exception => [Exception; BaseException]
  | ValueError => [ValueError; Exception; BaseException]
  | TypeError => [TypeError; Exception; BaseException]
  | AttributeError => [AttributeError; Exception; BaseException]
  | LookupError => [LookupError; Exception; BaseException]
  | KeyError => [KeyError; LookupError; Exception; BaseException]
  | IndexError => [IndexError; LookupError; Exception; BaseException]
  | OSError => [OSError; Exception; BaseException]
  | FileNotFoundError => [FileNotFoundError; OSError; Exception; BaseException]
  | PermissionError => [PermissionError; OSError; Exception; BaseException]
  | IsADirectoryError => [IsADirectoryError; OSError; Exception; BaseException]
  | UnicodeError => [UnicodeError; ValueError; Exception; BaseException]
  | UnicodeDecodeError =>
      [UnicodeDecodeError; UnicodeError; ValueError; Exception; BaseException]
  | JSONDecodeError => [JSONDecodeError; ValueError; Exception; BaseException]
  | RuntimeError => [RuntimeError; Exception; BaseException]
  | RecursionError => [RecursionError; RuntimeError; Exception; BaseException]
  | LibraryError n => [LibraryError n; Exception; BaseException]
  end.

(** An exception object: its class and, when the program text gives it, its
    message ([None] for a message chosen by the interpreter or a library). *)
Record exn := Exn { exn_cls : exn_class; exn_msg : option string }.

(** [isinstance(e, c)], the test an [except c] clause performs. *)
Definition isinstance (e : exn) (c : exn_class) : bool :=
  bool_decide (c ∈ mro (exn_cls e)).

(** ** Results and the state-and-exception monad *)

Inductive result (A : Type) : Type :=
  | Return (a : A)
  | Raise (e : exn).
Arguments Return {A} a.
Arguments Raise {A} e.

(** [container.get(key, default)]: only dictionaries have the method. *)
Definition dict_get (container : json) (key : string) (dflt : json) : result json :=
  match container with
  | JObj m => Return (default dflt (m !! key))
  | _ => Raise (Exn AttributeError None)
  end.

(** [key in container] for a string [key]: key membership in a dictionary,
    element membership in a list, substring search in a string, [TypeError]
    on the values that are not containers. *)
Definition contains (key : string) (container : json) : result bool :=
  match container with
  | JObj m => Return (bool_decide (key ∈ dom m))
  | JArr l => Return (existsb (eq_str key) l)
  | JStr s => Return (is_substring key s)
  | JNull | JBool _ | JInt _ | JFloat _ => Raise (Exn TypeError None)
  end.

(** [container[key]] for a string [key]. *)
Definition getitem (container : json) (key : string) : result json :=
  match container with
  | JObj m =>
      match m !! key with
      | Some v => Return v
      | None => Raise (Exn KeyError None)
      end
  | _ => Raise (Exn TypeError None)
  end.

(** [container[0]].  (A string is indexed by byte here; the factory applies
    [[0]] and [len] to lists only.) *)
Definition getitem0 (container : json) : result json :=
  match container with
  | JArr (x :: _) => Return x
  | JArr [] => Raise (Exn IndexError None)
  | JStr (String a _) => Return (JStr (String a EmptyString))
  | JStr EmptyString => Raise (Exn IndexError None)
  | JObj m =>
      (* the key would be the integer 0, which no JSON dictionary has *)
      Raise (Exn KeyError None)
  | JNull | JBool _ | JInt _ | JFloat _ => Raise (Exn TypeError None)
  end.

(** [len(container)]. *)
Definition len (container : json) : result nat :=
  match container with
  | JArr l => Return (length l)
  | JStr s => Return (String.length s)
  | JObj m => Return (size m)
  | JNull | JBool _ | JInt _ | JFloat _ => Raise (Exn TypeError None)
  end.

(** [set(container.keys())]. *)
Definition keys (container : json) : result (gset string) :=
  match container with
  | JObj m => Return (dom m)
  | _ => Raise (Exn AttributeError None)
  end.

(** A method over a state [S] (the attributes of [self]): it returns or
    raises, and the updates made before an exception stay. *)
Definition M (S A : Type) : Type := S → result A * S.

#[export] Instance M_ret {S} : MRet (M S) := λ A a s, (Return a, s).

#[export] Instance M_bind {S} : MBind (M S) := λ A B f m s,
  match m s with
  | (Return a, s') => f a s'
  | (Raise e, s') => (Raise e, s')
  end.

(** [raise e]. *)
Definition raise {S A} (e : exn) : M S A := λ s, (Raise e, s).

(** Reading [self] and assigning to its attributes. *)
Definition get {S} : M S S := λ s, (Return s, s).
Definition modify {S} (f : S → S) : M S unit := λ s, (Return (), f s).

(** The outcome of an expression evaluated inside a method. *)
Definition lift {S A} (r : result A) : M S A := λ s, (r, s).

(** The outcome of a call that returns nothing. *)
Definition lift_call {S} (o : option exn) : M S unit := λ s,
  match o with
  | None => (Return (), s)
  | Some e => (Raise e, s)
  end.

(** [try: body  except c1 [as e]: h1  except c2 [as e]: h2 ...]: the first
    clause whose class the exception is an instance of handles it; with no
    such clause the exception propagates. *)
Fixpoint select_handler {S A} (handlers : list (exn_class * (exn → M S A)))
    (e : exn) : option (M S A) :=
  match handlers with
  | [] => None
  | (c, h) :: rest => if isinstance e c then Some (h e) else select_handler rest e
  end.

Definition try_except {S A} (body : M S A)
    (handlers : list (exn_class * (exn → M S A))) : M S A := λ s,
  match body s with
  | (Return a, s') => (Return a, s')
  | (Raise e, s') =>
      match select_handler handlers e with
      | Some h => h s'
      | None => (Raise e, s')
      end
  end.

End Py.
Export Py.

(** Sequencing inside an expression: [result] is a monad too. *)
#[export] Instance result_ret : MRet result := λ A a, Return a.

#[export] Instance result_bind : MBind result := λ A B f r,
  match r with
  | Return a => f a
  | Raise e => Raise e
  end.

(** [a and b], where evaluating [b] may raise: [b] is not evaluated when [a]
    is false. *)
Definition and_then (a : bool) (b : result bool) : result bool :=
  if a then b else Return false.

(** ** Logging *)

(** A record handed to [logging.Logger]: its level and the pieces of its
    f-string, the literal text and the interpolated values ([str] of a value
    or of an exception is left to Python). *)
Inductive level := INFO | WARNING | ERROR.

Inductive fragment :=
  | Text (s : string)
  | Fmt (v : option json)
  | FmtExn (e : exn).

Record LogRecord := Log { levelname : level; msg : list fragment }.

(** ** The objects of the libraries *)

(** [fastmcp.utilities.openapi.HTTPRoute]: the attributes the factory reads.
    An operation of an OpenAPI document need not have an [operationId]. *)
Module HTTPRoute.
Record t := Make { operation_id : option string; method : string; path : string }.
End HTTPRoute.

(** [fastmcp.server.openapi.RouteMap] and [MCPType]: a route map is recorded
    with the keyword arguments of its construction, [None] for an argument
    that is not given (the library then uses its default).  Of [MCPType] only
    the two members the factory uses are listed. *)
Module RouteMap.
Inductive MCPType := TOOL | EXCLUDE.
Record t := Make {
  methods : option (list string);
  pattern : option string;
  mcp_type : MCPType
}.
End RouteMap.

(** [httpx.AsyncClient]: the keyword arguments of its construction and
    whether [aclose] has been awaited on it.  [auth] is [None] when no
    handler is given. *)
Module AsyncClient.
Record t {AuthHandler : Type} := Make {
  base_url : json;
  headers : gmap string string;
  timeout : Q;
  auth : option AuthHandler;
  is_closed : bool
}.
Arguments t : clear implicits.
Arguments Make {AuthHandler}.

(** The client after [await client.aclose()] has returned. *)
Definition aclose {AuthHandler} (client : t AuthHandler) : t AuthHandler :=
  {| base_url := base_url client; headers := headers client;
     timeout := timeout client; auth := auth client; is_closed := true |}.
End AsyncClient.

(** The identity of a dictionary object that several components hold: the
    factory never looks inside the operation-id dictionary, it hands the same
    object to the transformers. *)
Definition dict_id := nat.

(** [ToolTransformer], by the keyword arguments of its construction.  (The
    logger handed to the components is the factory's own; what they write to
    it is not part of this model.) *)
Module ToolTransformer.
Record t {Server : Type} := Make {
  mcp_server : option Server;
  http_routes : list HTTPRoute.t;
  custom_tool_names : json;
  op_id_map : dict_id
}.
Arguments t : clear implicits.
Arguments Make {Server}.

(** Modelled from the spec: the class [ToolTransformer] is defined in
    [mcp_server/tool_transformer.py], which is not among the sources at hand.
    The spec gives its task as "renaming/describing the generated tools to
    match a custom naming scheme" by "the declarative mapping step
    (operation-id → custom tool name)": the custom name of a tool is what the
    table [custom_tool_names] associates with the tool's operation id. *)
Definition custom_name {Server} (tr : t Server) (operation_id : string) : option json :=
  match custom_tool_names tr with
  | JObj table => table !! operation_id
  | _ => None
  end.
End ToolTransformer.

(** [starlette.responses.PlainTextResponse]. *)
Record PlainTextResponse := { content : string; status_code : Z }.

(** [fastmcp.FastMCP], as [FastMCP.from_openapi] builds it: the keyword
    arguments of the call ([auth] is always [None] there) and the custom
    routes registered on the server, each with what its endpoint answers. *)
Module FastMCP.
Record CustomRoute := {
  route_path : string;
  route_methods : list string;
  endpoint : PlainTextResponse
}.

Inductive t {AuthHandler : Type} := Make {
  openapi_spec : json;
  client : AsyncClient.t AuthHandler;
  name : string;
  route_maps : list RouteMap.t;
  mcp_component_fn : ToolTransformer.t t;
  custom_routes : list CustomRoute
}.
Arguments t : clear implicits.
Arguments Make {AuthHandler}.

(** [@mcp_server.custom_route(path, methods=methods)] applied to an
    endpoint. *)
Definition custom_route {AuthHandler} (p : string) (ms : list string)
    (e : PlainTextResponse) (mcp_server : t AuthHandler) : t AuthHandler :=
  {| openapi_spec := openapi_spec mcp_server; client := client mcp_server;
     name := name mcp_server; route_maps := route_maps mcp_server;
     mcp_component_fn := mcp_component_fn mcp_server;
     custom_routes := custom_routes mcp_server ++
       [{| route_path := p; route_methods := ms; endpoint := e |}] |}.
End FastMCP.

(** [core.config.MCPServiceConfig] is declared outside the sources at hand;
    the record has the attributes the factory reads.  [tool_mappings_file] is
    [None] or a path. *)
Module MCPServiceConfig.
Record t {AuthConfig : Type} := Make {
  name : string;
  openapi_path_or_url : string;
  tool_mappings_file : option string;
  auth : AuthConfig
}.
Arguments t : clear implicits.
Arguments Make {AuthConfig}.
End MCPServiceConfig.

(** [fastmcp]'s tools, resources and resource templates: a component is
    modelled by its [name] attribute, which may be [None]. *)
Module Component.
Record t := Make { name : option string }.
End Component.

(** What a server answers when asked for its components: a dictionary from
    keys to components, as the list of its items in insertion order, or the
    exception the request raises. *)
Record Registry {AuthHandler : Type} := {
  (** [await mcp_instance.get_tools()]. *)
  get_tools : FastMCP.t AuthHandler → result (list (string * Component.t));
  (** [await mcp_instance.get_resources()]. *)
  get_resources : FastMCP.t AuthHandler → result (list (string * Component.t));
  (** [await mcp_instance.get_resource_templates()]. *)
  get_resource_templates :
    FastMCP.t AuthHandler → result (list (string * Component.t))
}.
Arguments Registry : clear implicits.

(** ** The environment *)

(** What the components outside the factory answer.  A call that can fail
    gives a [result]; a constructor or a call without a value gives the
    exception it raises, if any. *)
Record Env {AuthConfig AuthHandler : Type} := {
  (** [open(path, "r", encoding="utf-8")]: the exception it raises, or [None]
      when the file opens. *)
  open_ : string → option exn;
  (** [json.load(f)] on the opened file at that path: reading, decoding and
      parsing. *)
  json_load : string → result json;
  (** [await OpenAPILoader(logger).load(path_or_url)]: the specification and
      its HTTP routes. *)
  OpenAPILoader_load : string → result (json * list HTTPRoute.t);
  (** [create_auth_handler(config.auth, logger)]. *)
  create_auth_handler : AuthConfig → result AuthHandler;
  (** [httpx.AsyncClient(...)], by the client it would build. *)
  AsyncClient_init : AsyncClient.t AuthHandler → option exn;
  (** [await client.aclose()]: the exception it raises, or [None] when the
      client closes. *)
  AsyncClient_aclose : AsyncClient.t AuthHandler → option exn;
  (** [FastMCP.from_openapi(...)], by the server it would build. *)
  FastMCP_from_openapi : FastMCP.t AuthHandler → option exn;
  (** [await tool_transformer.transform_tools()]. *)
  transform_tools : ToolTransformer.t (FastMCP.t AuthHandler) → option exn;
  (** [os.getenv(name)]. *)
  getenv : string → option string
}.
Arguments Env : clear implicits.

(** ** The factory *)

Module MCPFactory.
Section MCPFactory.
Context {AuthConfig AuthHandler : Type}.
Context (env : Env AuthConfig AuthHandler).

Abbreviation Server := (FastMCP.t AuthHandler).

(** The attributes of [self].  [logger] holds the records the factory has
    handed to its logger, oldest first. *)
Record t := Make {
  config : MCPServiceConfig.t AuthConfig;
  logger : list LogRecord;
  api_client : option (AsyncClient.t AuthHandler);
  openapi_spec : option json;
  http_routes : option (list HTTPRoute.t);
  base_url : option json;
  op_id_to_mangled_name : dict_id;
  tool_mappings : json
}.

Definition set_logger (v : list LogRecord) (self : t) : t :=
  {| config := config self; logger := v; api_client := api_client self;
     openapi_spec := openapi_spec self; http_routes := http_routes self;
     base_url := base_url self;
     op_id_to_mangled_name := op_id_to_mangled_name self;
     tool_mappings := tool_mappings self |}.

Definition set_api_client (v : option (AsyncClient.t AuthHandler)) (self : t) : t :=
  {| config := config self; logger := logger self; api_client := v;
     openapi_spec := openapi_spec self; http_routes := http_routes self;
     base_url := base_url self;
     op_id_to_mangled_name := op_id_to_mangled_name self;
     tool_mappings := tool_mappings self |}.

Definition set_openapi_spec (v : option json) (self : t) : t :=
  {| config := config self; logger := logger self; api_client := api_client self;
     openapi_spec := v; http_routes := http_routes self;
     base_url := base_url self;
     op_id_to_mangled_name := op_id_to_mangled_name self;
     tool_mappings := tool_mappings self |}.

Definition set_http_routes (v : option (list HTTPRoute.t)) (self : t) : t :=
  {| config := config self; logger := logger self; api_client := api_client self;
     openapi_spec := openapi_spec self; http_routes := v;
     base_url := base_url self;
     op_id_to_mangled_name := op_id_to_mangled_name self;
     tool_mappings := tool_mappings self |}.

Definition set_base_url (v : option json) (self : t) : t :=
  {| config := config self; logger := logger self; api_client := api_client self;
     openapi_spec := openapi_spec self; http_routes := http_routes self;
     base_url := v;
     op_id_to_mangled_name := op_id_to_mangled_name self;
     tool_mappings := tool_mappings self |}.

Definition set_tool_mappings (v : json) (self : t) : t :=
  {| config := config self; logger := logger self; api_client := api_client self;
     openapi_spec := openapi_spec self; http_routes := http_routes self;
     base_url := base_url self;
     op_id_to_mangled_name := op_id_to_mangled_name self;
     tool_mappings := v |}.

(** [self.logger.info(msg)], [.warning(msg)], [.error(msg)]. *)
Definition log (l : level) (m : list fragment) : M t unit :=
  modify (λ self, set_logger (logger self ++ [Log l m]) self).
Definition logger_info := log INFO.
Definition logger_warning := log WARNING.
Definition logger_error := log ERROR.

(** [__init__(self, config, logger)]; [fresh] is the identity of the
    dictionary that [self.op_id_to_mangled_name = {}] creates. *)
Definition __init__ (config : MCPServiceConfig.t AuthConfig)
    (logger : list LogRecord) (fresh : dict_id) : t :=
  {| config := config;
     logger := logger;
     api_client := None;
     openapi_spec := None;
     http_routes := None;
     base_url := None;
     op_id_to_mangled_name := fresh;
     tool_mappings := empty_dict |}.

(** [_load_openapi_spec] *)
Definition _load_openapi_spec : M t unit :=
  logger_info [Text "Loading OpenAPI specification..."];;
  self ← get;
  loaded ← lift (OpenAPILoader_load env
                   (MCPServiceConfig.openapi_path_or_url (config self)));
  modify (set_openapi_spec (Some loaded.1));;
  modify (set_http_routes (Some loaded.2)).

(** The default of [_determine_base_url]. *)
Definition default_base_url : json := JStr "http://localhost:8000".

(** The condition of [_determine_base_url]:
    [servers and isinstance(servers, list) and len(servers) > 0
     and "url" in servers[0]]. *)
Definition servers_have_url (servers : json) : result bool :=
  and_then (truthy servers)
    (and_then (is_list servers)
       (n ← len servers;
        and_then (bool_decide (0 < n))
          (first ← getitem0 servers;
           contains "url" first))).

(** [_determine_base_url] *)
Definition _determine_base_url : M t unit :=
  self ← get;
  match openapi_spec self with
  | None => raise (Exn ValueError (Some "OpenAPI specification not loaded"))
  | Some spec =>
      if negb (truthy spec)
      then raise (Exn ValueError (Some "OpenAPI specification not loaded"))
      else
        servers ← lift (dict_get spec "servers" empty_list);
        found ← lift (servers_have_url servers);
        if (found : bool) then
          url ← lift (first ← getitem0 servers; getitem first "url");
          modify (set_base_url (Some url));;
          self ← get;
          logger_info [Text "Using base URL from OpenAPI spec: ";
                       Fmt (base_url self)]
        else
          modify (set_base_url (Some default_base_url));;
          logger_warning [Text "No servers section found in OpenAPI spec."];;
          self ← get;
          logger_warning [Text "Using default base URL: "; Fmt (base_url self)]
  end.

(** The headers of [_create_api_client]. *)
Definition default_headers : gmap string string :=
  <["Accept" := "application/json"]>
    (<["User-Agent" := "DataInclusion-MCP-Server/1.0"]> ∅).

(** [_create_api_client] *)
Definition _create_api_client : M t unit :=
  self ← get;
  match base_url self with
  | None => raise (Exn ValueError (Some "Base URL not determined"))
  | Some url =>
      if negb (truthy url)
      then raise (Exn ValueError (Some "Base URL not determined"))
      else
        logger_info
          [Text "Creating HTTP client with new authentication handler..."];;
        auth_handler ← lift (create_auth_handler env
                               (MCPServiceConfig.auth (config self)));
        let headers := default_headers in
        let client :=
          {| AsyncClient.base_url := url;
             AsyncClient.headers := headers;
             AsyncClient.timeout := 30%Q;
             AsyncClient.auth := Some auth_handler;
             AsyncClient.is_closed := false |} in
        lift_call (AsyncClient_init env client);;
        modify (set_api_client (Some client));;
        logger_info
          [Text "HTTP client created successfully with authentication."]
  end.

(** [_load_tool_mappings] *)
Definition _load_tool_mappings : M t json :=
  self ← get;
  match MCPServiceConfig.tool_mappings_file (config self) with
  | None =>
      logger_info
        [Text "No custom tool mappings file specified. Using empty mappings."];;
      mret empty_dict
  | Some file =>
      if negb (truthy_str (Some file)) then
        logger_info
          [Text "No custom tool mappings file specified. Using empty mappings."];;
        mret empty_dict
      else
        try_except
          (lift_call (open_ env file);;
           mappings ← lift (json_load env file);
           logger_info [Text "Loaded custom tool mappings from "; Text file];;
           mret mappings)
          [ (FileNotFoundError, λ _,
               logger_warning
                 [Text "Custom tool mappings file not found: "; Text file;
                  Text ". "; Text "Using empty mappings."];;
               mret empty_dict);
            (JSONDecodeError, λ e,
               logger_error
                 [Text "Error decoding JSON from tool mappings file ";
                  Text file; Text ": "; FmtExn e; Text ". ";
                  Text "Using empty mappings."];;
               mret empty_dict) ]
  end.

(** [route.operation_id in allowed_op_ids]: a route without operation id is
    in no set of strings. *)
Definition op_id_in (route : HTTPRoute.t) (allowed_op_ids : gset string) : bool :=
  match HTTPRoute.operation_id route with
  | Some op_id => bool_decide (op_id ∈ allowed_op_ids)
  | None => false
  end.

(** The route map appended for a selected route. *)
Definition tool_route_map (route : HTTPRoute.t) : RouteMap.t :=
  {| RouteMap.methods := Some [HTTPRoute.method route];
     RouteMap.pattern := Some ("^" +:+ HTTPRoute.path route +:+ "$");
     RouteMap.mcp_type := RouteMap.TOOL |}.

(** [RouteMap(mcp_type=MCPType.EXCLUDE)]. *)
Definition exclude_route_map : RouteMap.t :=
  {| RouteMap.methods := None;
     RouteMap.pattern := None;
     RouteMap.mcp_type := RouteMap.EXCLUDE |}.

(** The block "Configuration des routes MCP" of [_create_mcp_server], which
    computes [route_maps]; the loop appends to the list route by route. *)
Definition configure_route_maps (self : t) (routes : list HTTPRoute.t)
    : result (list RouteMap.t) :=
  let route_maps := [] in
  if String.eqb (MCPServiceConfig.name (config self)) "datainclusion" then
    allowed_op_ids ← keys (tool_mappings self);
    let route_maps :=
      fold_left
        (λ route_maps route,
           if op_id_in route allowed_op_ids
           then route_maps ++ [tool_route_map route]
           else route_maps)
        routes route_maps in
    let route_maps := route_maps ++ [exclude_route_map] in
    mret route_maps
  else
    mret route_maps.

(** The transformer [_create_mcp_server] creates for the callback. *)
Definition temp_transformer (self : t) (routes : list HTTPRoute.t)
    : ToolTransformer.t Server :=
  {| ToolTransformer.mcp_server := None;
     ToolTransformer.http_routes := routes;
     ToolTransformer.custom_tool_names := tool_mappings self;
     ToolTransformer.op_id_map := op_id_to_mangled_name self |}.

(** The call [FastMCP.from_openapi(...)] of [_create_mcp_server], by the
    server it builds. *)
Definition from_openapi (self : t) (spec : json) (routes : list HTTPRoute.t)
    (client : AsyncClient.t AuthHandler) (route_maps : list RouteMap.t)
    : Server :=
  {| FastMCP.openapi_spec := spec;
     FastMCP.client := client;
     FastMCP.name := MCPServiceConfig.name (config self);
     FastMCP.route_maps := route_maps;
     FastMCP.mcp_component_fn := temp_transformer self routes;
     FastMCP.custom_routes := [] |}.

(** The endpoint [health_check] of [_create_mcp_server]. *)
Definition health_check : PlainTextResponse :=
  {| content := "OK"; status_code := 200 |}.

(** [_create_mcp_server] *)
Definition _create_mcp_server : M t Server :=
  self ← get;
  if negb (truthy_opt (openapi_spec self))
  then raise (Exn ValueError (Some "OpenAPI specification not loaded"))
  else if negb (truthy_list (http_routes self))
  then raise (Exn ValueError (Some "HTTP routes not loaded"))
  else
    match openapi_spec self, http_routes self, api_client self with
    | Some spec, Some routes, Some client =>
        logger_info [Text "Creating FastMCP server '";
                     Text (MCPServiceConfig.name (config self)); Text "'..."];;
        route_maps ← lift (configure_route_maps self routes);
        let mcp_server := from_openapi self spec routes client route_maps in
        lift_call (FastMCP_from_openapi env mcp_server);;
        let mcp_server :=
          FastMCP.custom_route "/health" ["GET"] health_check mcp_server in
        logger_info [Text "FastMCP server '"; Text (FastMCP.name mcp_server);
                     Text "' created successfully!"];;
        logger_info [Text "   - Custom GET-to-Tool mapping applied"];;
        logger_info
          [Text "   - Health check endpoint (/health) added successfully"];;
        mret mcp_server
    | _, _, None => raise (Exn ValueError (Some "API client not created"))
    | _, _, _ =>
        (* not reached: both attributes were tested above *)
        raise (Exn ValueError (Some "OpenAPI specification not loaded"))
    end.

(** The transformer [_transform_tools] creates. *)
Definition tool_transformer (self : t) (routes : list HTTPRoute.t)
    (mcp_server : Server) : ToolTransformer.t Server :=
  {| ToolTransformer.mcp_server := Some mcp_server;
     ToolTransformer.http_routes := routes;
     ToolTransformer.custom_tool_names := tool_mappings self;
     ToolTransformer.op_id_map := op_id_to_mangled_name self |}.

(** [_transform_tools] *)
Definition _transform_tools (mcp_server : Server) : M t unit :=
  self ← get;
  match http_routes self with
  | None | Some [] => raise (Exn ValueError (Some "HTTP routes not loaded"))
  | Some routes =>
      logger_info [Text "Transforming tools..."];;
      lift_call (transform_tools env (tool_transformer self routes mcp_server))
  end.

(** [await self.api_client.aclose()]: when the call returns the client is
    closed; when it raises, the exception comes out and the client is left as
    it was.  (Without a client the attribute access on [None] would raise
    [AttributeError]; the factory tests the client before.) *)
Definition aclose_api_client : M t unit :=
  self ← get;
  match api_client self with
  | Some client =>
      lift_call (AsyncClient_aclose env client);;
      modify (set_api_client (Some (AsyncClient.aclose client)))
  | None => raise (Exn AttributeError None)
  end.

(** The [try] suite of [build]. *)
Definition build_steps : M t Server :=
  mappings ← _load_tool_mappings;
  modify (set_tool_mappings mappings);;
  _load_openapi_spec;;
  _determine_base_url;;
  _create_api_client;;
  mcp_server ← _create_mcp_server;
  _transform_tools mcp_server;;
  mret mcp_server.

(** Some step of [build] raises [e], the steps before it having returned,
    and leaves the attributes as [s]. *)
Definition step_raises (self : t) (e : exn) (s : t) : Prop :=
  _load_tool_mappings self = (Raise e, s) ∨
  ∃ mappings s1,
    _load_tool_mappings self = (Return mappings, s1) ∧
    (_load_openapi_spec (set_tool_mappings mappings s1) = (Raise e, s) ∨
     ∃ s2,
       _load_openapi_spec (set_tool_mappings mappings s1) = (Return (), s2) ∧
       (_determine_base_url s2 = (Raise e, s) ∨
        ∃ s3,
          _determine_base_url s2 = (Return (), s3) ∧
          (_create_api_client s3 = (Raise e, s) ∨
           ∃ s4,
             _create_api_client s3 = (Return (), s4) ∧
             (_create_mcp_server s4 = (Raise e, s) ∨
              ∃ mcp_server s5,
                _create_mcp_server s4 = (Return mcp_server, s5) ∧
                _transform_tools mcp_server s5 = (Raise e, s))))).

(** All the steps of [build] return, one after the other, the last leaving
    the attributes as [s]. *)
Definition steps_return (self : t) (mcp_server : Server) (s : t) : Prop :=
  ∃ mappings s1 s2 s3 s4 s5,
    _load_tool_mappings self = (Return mappings, s1) ∧
    _load_openapi_spec (set_tool_mappings mappings s1) = (Return (), s2) ∧
    _determine_base_url s2 = (Return (), s3) ∧
    _create_api_client s3 = (Return (), s4) ∧
    _create_mcp_server s4 = (Return mcp_server, s5) ∧
    _transform_tools mcp_server s5 = (Return (), s).

(** The [except Exception as e] clause of [build]. *)
Definition build_handler (e : exn) : M t Server :=
  logger_error [Text "Failed to build MCP server: "; FmtExn e];;
  self ← get;
  match api_client self with
  | Some _ => aclose_api_client
  | None => mret ()
  end;;
  raise e.

(** [build] *)
Definition build : M t Server :=
  try_except build_steps [(Exception, build_handler)].

(** [cleanup] *)
Definition cleanup : M t unit :=
  self ← get;
  match api_client self with
  | Some _ =>
      logger_info [Text "Closing HTTP client..."];;
      aclose_api_client;;
      logger_info [Text "HTTP client closed successfully"]
  | None => mret ()
  end.

(** What no method of the factory undoes: between [self] before and [self']
    after, the configuration and the identity of the operation-id dictionary
    are the same, and the log has only grown. *)
Definition keeps (self self' : t) : Prop :=
  config self' = config self ∧
  op_id_to_mangled_name self' = op_id_to_mangled_name self ∧
  logger self `prefix_of` logger self'.

(** The configuration is the same, and the specification and the routes are
    as before or both hold what the loader returned for the configured
    path. *)
Definition loaded_together (self self' : t) : Prop :=
  config self' = config self ∧
  ((openapi_spec self' = openapi_spec self ∧
    http_routes self' = http_routes self) ∨
   (∃ spec routes,
      OpenAPILoader_load env
        (MCPServiceConfig.openapi_path_or_url (config self))
      = Return (spec, routes) ∧
      openapi_spec self' = Some spec ∧ http_routes self' = Some routes)).

End MCPFactory.
Arguments t : clear implicits.
End MCPFactory.

(** ** [utils.create_api_client] *)

Module utils.
Section utils.
Context {AuthConfig AuthHandler : Type}.
Context (env : Env AuthConfig AuthHandler).

(** A string holds the UTF-8 bytes of a Python [str]; a continuation byte
    (binary 10xxxxxx) belongs to the character of the byte before it. *)
Definition is_continuation (b : Ascii.ascii) : bool :=
  (128 <=? Ascii.nat_of_ascii b) && (Ascii.nat_of_ascii b <? 192).

Definition starts_with_continuation (s : string) : bool :=
  match s with
  | String b _ => is_continuation b
  | EmptyString => false
  end.

(** The characters (code points) of a string, each with its bytes, in
    order. *)
Fixpoint code_points (s : string) : list string :=
  match s with
  | EmptyString => []
  | String b rest =>
      match code_points rest with
      | c :: cs =>
          if starts_with_continuation c
          then String b c :: cs
          else String b EmptyString :: c :: cs
      | [] => [String b EmptyString]
      end
  end.

(** [''.join(cs)]. *)
Definition concat (cs : list string) : string :=
  fold_right String.append EmptyString cs.

(** [s[-4:]]: the last four characters of [s], or all of [s] when it is
    shorter. *)
Definition last4 (s : string) : string :=
  let cs := code_points s in
  concat (drop (length cs - 4) cs).

(** [print(line)]: the state is the standard output, oldest line first. *)
Definition print (line : string) : M (list string) unit :=
  modify (λ out, out ++ [line]).

(** [create_api_client(base_url)] *)
Definition create_api_client (base_url : string)
    : M (list string) (AsyncClient.t AuthHandler) :=
  let headers : gmap string string := ∅ in
  let api_key := getenv env "DATA_INCLUSION_API_KEY" in
  headers ←
    (if truthy_str api_key then
       let headers :=
         <["Authorization" := "Bearer " +:+ default "" api_key]> headers in
       print ("✅ Using DATA_INCLUSION_API_KEY from environment variable (key: ***"
              +:+ last4 (default "" api_key) +:+ ")");;
       mret headers
     else
       print "⚠️  Warning: DATA_INCLUSION_API_KEY environment variable not set.";;
       print "   Some API endpoints may be publicly accessible, but authenticated endpoints will fail.";;
       print "   Please set DATA_INCLUSION_API_KEY in your .env file if you have an API key.";;
       mret headers);
  let headers :=
    <["Accept" := "application/json"]>
      (<["User-Agent" := "DataInclusion-MCP-Server/1.0"]> headers) in
  let client :=
    {| AsyncClient.base_url := JStr base_url;
       AsyncClient.headers := headers;
       AsyncClient.timeout := 30%Q;
       AsyncClient.auth := None;
       AsyncClient.is_closed := false |} in
  lift_call (AsyncClient_init env client);;
  mret client.

(** The line feed of ["\n"]. *)
Definition newline : string := String (Ascii.ascii_of_nat 10) "".

(** [sep.join(l)]. *)
Fixpoint join (sep : string) (l : list string) : string :=
  match l with
  | [] => ""
  | [x] => x
  | x :: rest => x +:+ sep +:+ join sep rest
  end.

(** [sorted(l)] for a list of strings.  Python orders strings by code point,
    which is the order of their UTF-8 bytes. *)
Definition sorted (l : list string) : list string := merge_sort String.le l.

(** [[c.name for c in d.values() if c.name is not None]]. *)
Definition names_of (d : list (string * Component.t)) : list string :=
  omap (λ item, Component.name item.2) d.

(** One of the three blocks of [inspect_mcp_components], which differ in the
    two texts: the count of the dictionary, then its sorted names or, for an
    empty dictionary, the text saying there is none. *)
Definition print_components (found none : string)
    (d : list (string * Component.t)) : M (list string) unit :=
  print (pretty (length d) +:+ found);;
  match d with
  | _ :: _ => print ("  Names: " +:+ join ", " (sorted (names_of d)))
  | [] => print none
  end.

(** [inspect_mcp_components(mcp_instance)] *)
Definition inspect_mcp_components (registry : Registry AuthHandler)
    (mcp_instance : FastMCP.t AuthHandler) : M (list string) unit :=
  print (newline +:+ "--- Inspecting MCP Components ---");;
  tools ← lift (get_tools registry mcp_instance);
  resources ← lift (get_resources registry mcp_instance);
  templates ← lift (get_resource_templates registry mcp_instance);
  print_components " Tool(s) found:" "  No tools generated." tools;;
  print_components " Resource(s) found:" "  No resources generated." resources;;
  print_components " Resource Template(s) found:"
    "  No resource templates generated." templates;;
  print ("--- End of MCP Components Inspection ---" +:+ newline).

End utils.
End utils.

(** ** A sample deployment *)

(** A concrete environment and configuration, used to run the methods:
    authentication configurations and handlers are plain strings here. *)
Module Demo.

Definition names : gmap string json :=
  <["list_structures" := JStr "list_all_structures"]>
    (<["get_service" := JStr "get_service_details"]> ∅).

Definition table : json := JObj names.

Definition spec : json :=
  JObj (<["openapi" := JStr "3.1.0"]>
          (<["servers" :=
               JArr [JObj (<["url" := JStr "https://api.example.org"]> ∅)]]> ∅)).

Definition routes : list HTTPRoute.t :=
  [ HTTPRoute.Make (Some "list_structures") "GET" "/structures";
    HTTPRoute.Make (Some "list_sources") "GET" "/sources";
    HTTPRoute.Make None "GET" "/docs";
    HTTPRoute.Make (Some "get_service") "GET" "/services/{id}" ].

(** Three files: one holds [table], one cannot be read, one is not JSON; any
    other path does not exist. *)
Definition env : Env string string :=
  {| open_ := λ p,
       if String.eqb p "mappings.json" then None
       else if String.eqb p "broken.json" then None
       else if String.eqb p "locked.json" then Some (Exn PermissionError None)
       else Some (Exn FileNotFoundError None);
     json_load := λ p,
       if String.eqb p "mappings.json" then Return table
       else Raise (Exn JSONDecodeError None);
     OpenAPILoader_load := λ _, Return (spec, routes);
     create_auth_handler := λ a, Return ("handler for " +:+ a);
     AsyncClient_init := λ _, None;
     AsyncClient_aclose := λ _, None;
     FastMCP_from_openapi := λ _, None;
     transform_tools := λ _, None;
     getenv := λ _, None |}.

(** The same environment, where the transformation of the tools fails. *)
Definition failing_env : Env string string :=
  {| open_ := open_ env;
     json_load := json_load env;
     OpenAPILoader_load := OpenAPILoader_load env;
     create_auth_handler := create_auth_handler env;
     AsyncClient_init := AsyncClient_init env;
     AsyncClient_aclose := AsyncClient_aclose env;
     FastMCP_from_openapi := FastMCP_from_openapi env;
     transform_tools := λ _, Some (Exn RuntimeError (Some "tool not found"));
     getenv := getenv env |}.

(** The same environment, where the task is cancelled while the tools are
    transformed. *)
Definition cancelled_env : Env string string :=
  {| open_ := open_ env;
     json_load := json_load env;
     OpenAPILoader_load := OpenAPILoader_load env;
     create_auth_handler := create_auth_handler env;
     AsyncClient_init := AsyncClient_init env;
     AsyncClient_aclose := AsyncClient_aclose env;
     FastMCP_from_openapi := FastMCP_from_openapi env;
     transform_tools := λ _, Some (Exn CancelledError None);
     getenv := getenv env |}.

(** The failing environment again, where closing the client fails too. *)
Definition unclosable_env : Env string string :=
  {| open_ := open_ env;
     json_load := json_load env;
     OpenAPILoader_load := OpenAPILoader_load env;
     create_auth_handler := create_auth_handler env;
     AsyncClient_init := AsyncClient_init env;
     AsyncClient_aclose := λ _, Some (Exn OSError (Some "connection reset"));
     FastMCP_from_openapi := FastMCP_from_openapi env;
     transform_tools := transform_tools failing_env;
     getenv := getenv env |}.

(** The sample environment, where closing the client fails. *)
Definition leaking_env : Env string string :=
  {| open_ := open_ env;
     json_load := json_load env;
     OpenAPILoader_load := OpenAPILoader_load env;
     create_auth_handler := create_auth_handler env;
     AsyncClient_init := AsyncClient_init env;
     AsyncClient_aclose := λ _, Some (Exn OSError (Some "connection reset"));
     FastMCP_from_openapi := FastMCP_from_openapi env;
     transform_tools := transform_tools env;
     getenv := getenv env |}.

(** The same environment, where an API key is set. *)
Definition keyed_env : Env string string :=
  {| open_ := open_ env;
     json_load := json_load env;
     OpenAPILoader_load := OpenAPILoader_load env;
     create_auth_handler := create_auth_handler env;
     AsyncClient_init := AsyncClient_init env;
     AsyncClient_aclose := AsyncClient_aclose env;
     FastMCP_from_openapi := FastMCP_from_openapi env;
     transform_tools := transform_tools env;
     getenv := λ n,
       if String.eqb n "DATA_INCLUSION_API_KEY" then Some "secret-1234" else None |}.

Definition config (name : string) (file : option string) : MCPServiceConfig.t string :=
  {| MCPServiceConfig.name := name;
     MCPServiceConfig.openapi_path_or_url := "https://api.example.org/openapi.json";
     MCPServiceConfig.tool_mappings_file := file;
     MCPServiceConfig.auth := "bearer" |}.

(** A new factory. *)
Definition factory (name : string) (file : option string) : MCPFactory.t string string :=
  MCPFactory.__init__ (config name file) [] 0.

(** The client the sample deployment creates. *)
Definition client : AsyncClient.t string :=
  {| AsyncClient.base_url := JStr "https://api.example.org";
     AsyncClient.headers := MCPFactory.default_headers;
     AsyncClient.timeout := 30%Q;
     AsyncClient.auth := Some "handler for bearer";
     AsyncClient.is_closed := false |}.

(** A factory at the point where [_create_mcp_server] is called. *)
Definition loaded_factory (name : string) (mappings : json) : MCPFactory.t string string :=
  {| MCPFactory.config := config name (Some "mappings.json");
     MCPFactory.logger := [];
     MCPFactory.api_client := Some client;
     MCPFactory.openapi_spec := Some spec;
     MCPFactory.http_routes := Some routes;
     MCPFactory.base_url := Some (JStr "https://api.example.org");
     MCPFactory.op_id_to_mangled_name := 0;
     MCPFactory.tool_mappings := mappings |}.

(** A factory whose specification is a given document. *)
Definition factory_with_spec (doc : option json) : MCPFactory.t string string :=
  MCPFactory.set_openapi_spec doc (factory "datainclusion" None).

(** A specification whose first server has an empty URL, and an
    environment whose loader returns it. *)
Definition blank_url_doc : gmap string json :=
  <["servers" := JArr [JObj (<["url" := JStr ""]> ∅)]]> ∅.

Definition blank_url_env : Env string string :=
  {| open_ := open_ env;
     json_load := json_load env;
     OpenAPILoader_load := λ _, Return (JObj blank_url_doc, routes);
     create_auth_handler := create_auth_handler env;
     AsyncClient_init := AsyncClient_init env;
     AsyncClient_aclose := AsyncClient_aclose env;
     FastMCP_from_openapi := FastMCP_from_openapi env;
     transform_tools := transform_tools env;
     getenv := getenv env |}.

(** The components of a server: three tools, one of them without a name, one
    resource and no resource template. *)
Definition tools : list (string * Component.t) :=
  [ ("list_all_structures", Component.Make (Some "list_all_structures"));
    ("anonymous", Component.Make None);
    ("get_service_details", Component.Make (Some "get_service_details")) ].

Definition resources : list (string * Component.t) :=
  [ ("doc", Component.Make (Some "documentation")) ].

Definition registry : Registry string :=
  {| get_tools := λ _, Return tools;
     get_resources := λ _, Return resources;
     get_resource_templates := λ _, Return [] |}.

(** The same components, the tools in another order. *)
Definition reordered_registry : Registry string :=
  {| get_tools := λ _, Return (reverse tools);
     get_resources := λ _, Return resources;
     get_resource_templates := λ _, Return [] |}.

(** A server whose resources cannot be listed. *)
Definition failing_registry : Registry string :=
  {| get_tools := λ _, Return tools;
     get_resources := λ _, Raise (Exn RuntimeError (Some "no resources"));
     get_resource_templates := λ _, Return [] |}.

(** The server [_create_mcp_server] makes in the sample deployment. *)
Definition server : FastMCP.t string :=
  FastMCP.custom_route "/health" ["GET"] MCPFactory.health_check
    (MCPFactory.from_openapi (loaded_factory "datainclusion" table) spec routes
       client
       [ RouteMap.Make (Some ["GET"]) (Some "^/structures$") RouteMap.TOOL;
         RouteMap.Make (Some ["GET"]) (Some "^/services/{id}$") RouteMap.TOOL;
         RouteMap.Make None None RouteMap.EXCLUDE ]).

End Demo.

(** * Properties *)

(** ** Running methods *)

Section Monad.
Context {S : Type}.

Lemma bind_run {A B} (m : M S A) (f : A → M S B) s a s1 :
  m s = (Return a, s1) → (m ≫= f) s = f a s1.
Proof. intros H. unfold mbind, M_bind. now rewrite H. Qed.

Lemma bind_run_raise {A B} (m : M S A) (f : A → M S B) s e s1 :
  m s = (Raise e, s1) → (m ≫= f) s = (Raise e, s1).
Proof. intros H. unfold mbind, M_bind. now rewrite H. Qed.

Lemma bind_Return_inv {A B} (m : M S A) (f : A → M S B) s b s' :
  (m ≫= f) s = (Return b, s') →
  ∃ a s1, m s = (Return a, s1) ∧ f a s1 = (Return b, s').
Proof.
  unfold mbind, M_bind. destruct (m s) as [[a|e] s1]; intros H.
  - eauto.
  - discriminate.
Qed.

Lemma bind_Raise_inv {A B} (m : M S A) (f : A → M S B) s e s' :
  (m ≫= f) s = (Raise e, s') →
  m s = (Raise e, s') ∨ ∃ a s1, m s = (Return a, s1) ∧ f a s1 = (Raise e, s').
Proof.
  unfold mbind, M_bind. destruct (m s) as [[a|e1] s1]; intros H.
  - right. eauto.
  - left. now inversion H.
Qed.

End Monad.

(** ** The factory's methods *)

Section Properties.
Context {AuthConfig AuthHandler : Type}.
Context (env : Env AuthConfig AuthHandler).
Import MCPFactory.
Implicit Types (self : MCPFactory.t AuthConfig AuthHandler).
Implicit Types (routes : list HTTPRoute.t) (allowed : gset string).

(** *** Route selection *)

(** The loop of [_create_mcp_server] appends, in order, the route maps of
    the routes whose operation id is allowed. *)
Lemma select_routes_fold allowed routes (acc : list RouteMap.t) :
  fold_left
    (λ route_maps route,
       if op_id_in route allowed
       then route_maps ++ [tool_route_map route]
       else route_maps)
    routes acc
  = acc ++ map tool_route_map (List.filter (λ r, op_id_in r allowed) routes).
Proof.
  revert acc. induction routes as [|r routes IH]; intros acc; simpl.
  - now rewrite app_nil_r.
  - rewrite IH. destruct (op_id_in r allowed); simpl.
    + now rewrite <- app_assoc.
    + reflexivity.
Qed.

Lemma configure_route_maps_datainclusion self routes table :
  MCPServiceConfig.name (config self) = "datainclusion" →
  tool_mappings self = JObj table →
  configure_route_maps self routes =
    Return (map tool_route_map
              (List.filter (λ r, op_id_in r (dom table)) routes)
            ++ [exclude_route_map]).
Proof.
  intros Hname Htable. unfold configure_route_maps.
  rewrite Hname, Htable. simpl.
  now rewrite select_routes_fold.
Qed.

Lemma configure_route_maps_other self routes :
  MCPServiceConfig.name (config self) ≠ "datainclusion" →
  configure_route_maps self routes = Return [].
Proof.
  intros Hname. unfold configure_route_maps.
  destruct (String.eqb_spec (MCPServiceConfig.name (config self)) "datainclusion")
    as [Heq|_]; [contradiction|reflexivity].
Qed.

Lemma configure_route_maps_Return_inv self routes route_maps :
  configure_route_maps self routes = Return route_maps →
  MCPServiceConfig.name (config self) = "datainclusion" →
  ∃ table, tool_mappings self = JObj table.
Proof.
  unfold configure_route_maps. intros H Hname. rewrite Hname in H. simpl in H.
  destruct (tool_mappings self); try discriminate. eauto.
Qed.

(** Unfolding the monad in a hypothesis or in the goal. *)
Ltac unfold_M :=
  unfold mbind, M_bind, mret, M_ret, get, raise, logger_info, logger_warning,
    logger_error, log, modify, lift, lift_call, try_except in *.

Lemma create_mcp_server_Return_inv self srv self' :
  _create_mcp_server env self = (Return srv, self') →
  ∃ spec routes client route_maps,
    openapi_spec self = Some spec ∧ truthy spec = true ∧
    http_routes self = Some routes ∧ routes ≠ [] ∧
    api_client self = Some client ∧
    configure_route_maps self routes = Return route_maps ∧
    FastMCP_from_openapi env (from_openapi self spec routes client route_maps) = None ∧
    srv = FastMCP.custom_route "/health" ["GET"] health_check
            (from_openapi self spec routes client route_maps) ∧
    ∃ records, self' = set_logger (logger self ++ records) self.
Proof.
  intros H. unfold _create_mcp_server in H. unfold_M.
  destruct (openapi_spec self) as [spec|] eqn:Hspec; simpl in H;
    [|discriminate].
  destruct (truthy spec) eqn:Htruthy; simpl in H; [|discriminate].
  destruct (http_routes self) as [[|r routes]|] eqn:Hroutes; simpl in H;
    try discriminate.
  destruct (api_client self) as [client|] eqn:Hclient; [|discriminate].
  destruct (configure_route_maps self (r :: routes)) as [route_maps|e] eqn:Hmaps;
    [|discriminate].
  destruct (FastMCP_from_openapi env _) as [e|] eqn:Hcall; [discriminate|].
  inversion H; subst; clear H.
  exists spec, (r :: routes), client, route_maps.
  repeat split; try done.
  destruct self; simpl. eexists. rewrite <- !app_assoc. reflexivity.
Qed.

Lemma create_mcp_server_Return self spec routes client route_maps :
  openapi_spec self = Some spec → truthy spec = true →
  http_routes self = Some routes → routes ≠ [] →
  api_client self = Some client →
  configure_route_maps self routes = Return route_maps →
  FastMCP_from_openapi env (from_openapi self spec routes client route_maps) = None →
  ∃ self',
    _create_mcp_server env self =
      (Return (FastMCP.custom_route "/health" ["GET"] health_check
                 (from_openapi self spec routes client route_maps)), self').
Proof.
  intros Hspec Htruthy Hroutes Hne Hclient Hmaps Hcall.
  unfold _create_mcp_server. unfold_M.
  rewrite Hspec, Hroutes, Hclient. simpl. rewrite Htruthy. simpl.
  destruct routes as [|r routes]; [done|]. simpl.
  rewrite Hmaps, Hcall. eauto.
Qed.

Lemma elem_of_tool_route_maps allowed routes (rm : RouteMap.t) :
  RouteMap.mcp_type rm = RouteMap.TOOL →
  rm ∈ map tool_route_map (List.filter (λ r, op_id_in r allowed) routes)
       ++ [exclude_route_map] ↔
  ∃ r op_id, r ∈ routes ∧ HTTPRoute.operation_id r = Some op_id ∧
             op_id ∈ allowed ∧ rm = tool_route_map r.
Proof.
  intros Htool. rewrite elem_of_app, list_elem_of_singleton. split.
  - intros [Hin| ->]; [|discriminate].
    apply list_elem_of_In, in_map_iff in Hin as (r & <- & Hr).
    apply filter_In in Hr as [Hr Hop]. unfold op_id_in in Hop.
    destruct (HTTPRoute.operation_id r) as [op_id|] eqn:Hid; [|discriminate].
    apply bool_decide_eq_true in Hop.
    exists r, op_id. by rewrite list_elem_of_In.
  - intros (r & op_id & Hr & Hid & Hop & ->). left.
    apply list_elem_of_In, in_map, filter_In. split.
    + by apply list_elem_of_In.
    + unfold op_id_in. rewrite Hid. by apply bool_decide_eq_true.
Qed.

(** C1 (amended).  When [_create_mcp_server] returns a server, the route maps
    it was created with are decided by the configuration's name.  For the
    name "datainclusion" the mapping table is a dictionary and the list holds,
    in the order of the routes, one [TOOL] entry with the route's method and
    the pattern [^path$] per route whose operation id is a key of the table,
    followed by one final [EXCLUDE] entry; a [TOOL] entry is in the list
    exactly when it is the entry of such a route.  For every other name the
    list is empty: the factory selects nothing. *)
Theorem route_maps_selection self srv self' :
  _create_mcp_server env self = (Return srv, self') →
  ∃ routes,
    http_routes self = Some routes ∧
    (MCPServiceConfig.name (config self) = "datainclusion" →
     ∃ table,
       tool_mappings self = JObj table ∧
       FastMCP.route_maps srv =
         map tool_route_map
           (List.filter (λ r, op_id_in r (dom table)) routes)
         ++ [exclude_route_map] ∧
       ∀ rm, RouteMap.mcp_type rm = RouteMap.TOOL →
         (rm ∈ FastMCP.route_maps srv ↔
          ∃ r op_id, r ∈ routes ∧ HTTPRoute.operation_id r = Some op_id ∧
                     op_id ∈ dom table ∧ rm = tool_route_map r)) ∧
    (MCPServiceConfig.name (config self) ≠ "datainclusion" →
     FastMCP.route_maps srv = []).
Proof.
  intros H.
  apply create_mcp_server_Return_inv in H
    as (spec & routes & client & route_maps & _ & _ & Hroutes & _ & _ & Hmaps
        & _ & -> & _).
  exists routes. split; [exact Hroutes|]. simpl. split.
  - intros Hname.
    destruct (configure_route_maps_Return_inv _ _ _ Hmaps Hname) as [table Htable].
    exists table. split; [exact Htable|].
    rewrite (configure_route_maps_datainclusion _ routes _ Hname Htable) in Hmaps.
    inversion Hmaps; subst; clear Hmaps. split; [reflexivity|].
    intros rm Htool. by apply elem_of_tool_route_maps.
  - intros Hname.
    rewrite (configure_route_maps_other _ routes Hname) in Hmaps.
    by inversion Hmaps.
Qed.

(** *** The mapping table *)

(** [_load_tool_mappings] writes to the logger and to nothing else. *)
Lemma load_tool_mappings_state self :
  ∃ records,
    (_load_tool_mappings env self).2 = set_logger (logger self ++ records) self.
Proof.
  unfold _load_tool_mappings. unfold_M.
  destruct self as [cfg lg cl sp rt bu ids tm]; simpl.
  destruct (MCPServiceConfig.tool_mappings_file cfg) as [file|]; simpl;
    [|by eexists].
  destruct (String.eqb file ""); simpl; [by eexists|].
  destruct (open_ env file) as [e|]; simpl.
  - destruct (isinstance e FileNotFoundError); simpl; [by eexists|].
    destruct (isinstance e JSONDecodeError); simpl; [by eexists|].
    exists []. by rewrite app_nil_r.
  - destruct (json_load env file) as [v|e]; simpl; [by eexists|].
    destruct (isinstance e FileNotFoundError); simpl; [by eexists|].
    destruct (isinstance e JSONDecodeError); simpl; [by eexists|].
    exists []. by rewrite app_nil_r.
Qed.

(** C5 (amended).  [_load_tool_mappings] returns the empty dictionary when no
    mappings file is configured ([None] or the empty string), and when opening
    or loading the file raises an instance of [FileNotFoundError] or of
    [json.JSONDecodeError]; it returns the value [json.load] parsed when the
    file opens and loads; every other exception raised by [open] or by
    [json.load] propagates to the caller.  In all cases only the logger
    changes. *)
Theorem load_tool_mappings_outcome self :
  let run := _load_tool_mappings env self in
  (∃ records, run.2 = set_logger (logger self ++ records) self) ∧
  match MCPServiceConfig.tool_mappings_file (config self) with
  | None => run.1 = Return empty_dict
  | Some file =>
      if String.eqb file "" then run.1 = Return empty_dict
      else
        match open_ env file with
        | Some e =>
            if isinstance e FileNotFoundError || isinstance e JSONDecodeError
            then run.1 = Return empty_dict
            else run.1 = Raise e
        | None =>
            match json_load env file with
            | Return mappings => run.1 = Return mappings
            | Raise e =>
                if isinstance e FileNotFoundError || isinstance e JSONDecodeError
                then run.1 = Return empty_dict
                else run.1 = Raise e
            end
        end
  end.
Proof.
  split; [apply load_tool_mappings_state|].
  unfold _load_tool_mappings. unfold_M.
  destruct (MCPServiceConfig.tool_mappings_file (config self)) as [file|];
    simpl; [|reflexivity].
  destruct (String.eqb file ""); simpl; [reflexivity|].
  destruct (open_ env file) as [e|]; simpl.
  - destruct (isinstance e FileNotFoundError); simpl; [reflexivity|].
    destruct (isinstance e JSONDecodeError); reflexivity.
  - destruct (json_load env file) as [v|e]; simpl; [reflexivity|].
    destruct (isinstance e FileNotFoundError); simpl; [reflexivity|].
    destruct (isinstance e JSONDecodeError); reflexivity.
Qed.

(** *** The base URL *)

Lemma determine_base_url_found self (doc first : gmap string json) rest url :
  openapi_spec self = Some (JObj doc) → truthy (JObj doc) = true →
  doc !! "servers" = Some (JArr (JObj first :: rest)) →
  first !! "url" = Some url →
  _determine_base_url self =
    (Return (),
     set_logger
       (logger self ++
        [Log INFO [Text "Using base URL from OpenAPI spec: "; Fmt (Some url)]])
       (set_base_url (Some url) self)).
Proof.
  intros Hspec Htruthy Hservers Hurl.
  unfold _determine_base_url. unfold_M.
  rewrite Hspec, Htruthy. simpl. rewrite Hservers. simpl.
  rewrite bool_decide_eq_true_2 by (apply elem_of_dom; eauto).
  rewrite Hurl. reflexivity.
Qed.

Lemma determine_base_url_default self (doc : gmap string json) :
  openapi_spec self = Some (JObj doc) → truthy (JObj doc) = true →
  servers_have_url (default empty_list (doc !! "servers")) = Return false →
  _determine_base_url self =
    (Return (),
     set_logger
       (logger self ++
        [Log WARNING [Text "No servers section found in OpenAPI spec."];
         Log WARNING [Text "Using default base URL: ";
                      Fmt (Some default_base_url)]])
       (set_base_url (Some default_base_url) self)).
Proof.
  intros Hspec Htruthy Hcond.
  unfold _determine_base_url. unfold_M.
  rewrite Hspec, Htruthy. simpl. rewrite Hcond.
  destruct self; simpl. by rewrite <- app_assoc.
Qed.

(** C6 (amended).  [_determine_base_url] raises [ValueError] when the
    specification is not loaded ([None]) or is empty.  When it is a non-empty
    dictionary: the method sets [base_url] to [servers[0]["url"]] when
    "servers" is a list whose first element is a dictionary with the key
    "url"; it sets [base_url] to the default "http://localhost:8000" when
    "servers" is absent, is an empty list, is not a list, or has as first
    element a dictionary without the key "url".  The log tells the two
    assignments apart. *)
Theorem determine_base_url_cases self :
  (truthy_opt (openapi_spec self) = false →
   _determine_base_url self =
     (Raise (Exn ValueError (Some "OpenAPI specification not loaded")), self)) ∧
  (∀ doc : gmap string json,
     openapi_spec self = Some (JObj doc) → truthy (JObj doc) = true →
     let servers := default empty_list (doc !! "servers") in
     (∀ (first : gmap string json) rest url,
        servers = JArr (JObj first :: rest) → first !! "url" = Some url →
        _determine_base_url self =
          (Return (),
           set_logger
             (logger self ++
              [Log INFO [Text "Using base URL from OpenAPI spec: ";
                         Fmt (Some url)]])
             (set_base_url (Some url) self))) ∧
     (doc !! "servers" = None ∨ servers = JArr [] ∨ is_list servers = false ∨
      (∃ (first : gmap string json) rest,
         servers = JArr (JObj first :: rest) ∧ first !! "url" = None) →
      _determine_base_url self =
        (Return (),
         set_logger
           (logger self ++
            [Log WARNING [Text "No servers section found in OpenAPI spec."];
             Log WARNING [Text "Using default base URL: ";
                          Fmt (Some default_base_url)]])
           (set_base_url (Some default_base_url) self)))).
Proof.
  split.
  - intros Hnot. unfold _determine_base_url. unfold_M.
    destruct (openapi_spec self) as [spec|]; simpl in *; [|reflexivity].
    by rewrite Hnot.
  - intros doc Hspec Htruthy servers. split.
    + intros first rest url Hservers Hurl.
      apply (determine_base_url_found self doc first rest url); try done.
      subst servers. destruct (doc !! "servers") as [v|]; simpl in *.
      * by rewrite Hservers.
      * discriminate.
    + intros Hcase. apply (determine_base_url_default self doc); try done.
      fold servers.
      destruct Hcase as [Habsent|[Hempty|[Hnolist|(first & rest & Hfirst & Hurl)]]].
      * subst servers. by rewrite Habsent.
      * by rewrite Hempty.
      * unfold servers_have_url. rewrite Hnolist.
        by destruct (truthy servers).
      * rewrite Hfirst. unfold servers_have_url. simpl.
        rewrite bool_decide_eq_false_2; [done|].
        rewrite elem_of_dom, Hurl. by intros [? ?].
Qed.

(** *** The API client *)

(** The two fixed headers, and no other. *)
Lemma default_headers_lookup (h : string) :
  default_headers !! h =
    if String.eqb h "Accept" then Some "application/json"
    else if String.eqb h "User-Agent" then Some "DataInclusion-MCP-Server/1.0"
    else None.
Proof.
  unfold default_headers.
  destruct (String.eqb_spec h "Accept") as [->|Hacc]; [by rewrite lookup_insert_eq|].
  rewrite lookup_insert_ne by done.
  destruct (String.eqb_spec h "User-Agent") as [->|Hua];
    [by rewrite lookup_insert_eq|].
  by rewrite lookup_insert_ne.
Qed.

(** C4.  Given a determined base URL, [_create_api_client] constructs the
    [httpx.AsyncClient] with exactly that base URL, the handler that
    [create_auth_handler(config.auth)] returned as [auth], a timeout of 30.0
    seconds and the headers "User-Agent: DataInclusion-MCP-Server/1.0" and
    "Accept: application/json"; there is no other header, in particular no
    "Authorization" header.  The client becomes [self.api_client]. *)
Theorem create_api_client_delegates self (url : json) (handler : AuthHandler) :
  let client :=
    {| AsyncClient.base_url := url;
       AsyncClient.headers := default_headers;
       AsyncClient.timeout := 30%Q;
       AsyncClient.auth := Some handler;
       AsyncClient.is_closed := false |} in
  base_url self = Some url → truthy url = true →
  create_auth_handler env (MCPServiceConfig.auth (config self)) = Return handler →
  AsyncClient_init env client = None →
  ∃ self',
    _create_api_client env self = (Return (), self') ∧
    api_client self' = Some client ∧
    AsyncClient.headers client !! "User-Agent" = Some "DataInclusion-MCP-Server/1.0" ∧
    AsyncClient.headers client !! "Accept" = Some "application/json" ∧
    AsyncClient.headers client !! "Authorization" = None ∧
    (∀ h, is_Some (AsyncClient.headers client !! h) → h = "User-Agent" ∨ h = "Accept").
Proof.
  intros client Hurl Htruthy Hauth Hinit.
  unfold _create_api_client. unfold_M.
  rewrite Hurl, Htruthy. simpl. rewrite Hauth. fold client. rewrite Hinit.
  eexists. split; [reflexivity|]. simpl.
  repeat split; try (by rewrite default_headers_lookup).
  intros h. rewrite default_headers_lookup.
  destruct (String.eqb_spec h "Accept") as [->|_]; [by right|].
  destruct (String.eqb_spec h "User-Agent") as [->|_]; [by left|].
  by intros [? ?].
Qed.

(** Without a determined base URL no client is built. *)
Lemma create_api_client_no_base_url self :
  truthy_opt (base_url self) = false →
  _create_api_client env self =
    (Raise (Exn ValueError (Some "Base URL not determined")), self).
Proof.
  intros Hnot. unfold _create_api_client. unfold_M.
  destruct (base_url self) as [url|]; simpl in *; [|reflexivity].
  by rewrite Hnot.
Qed.

(** [utils.create_api_client], by contrast, builds the "Authorization" header
    itself from the environment variable and passes no [auth] handler. *)
Lemma utils_create_api_client_bearer (url key : string) out :
  getenv env "DATA_INCLUSION_API_KEY" = Some key → key ≠ "" →
  (∀ c, AsyncClient_init env c = None) →
  ∃ client out',
    utils.create_api_client env url out = (Return client, out') ∧
    AsyncClient.headers client !! "Authorization" = Some ("Bearer " +:+ key) ∧
    AsyncClient.auth client = None.
Proof.
  intros Hkey Hne Hinit. unfold utils.create_api_client, utils.print. unfold_M.
  rewrite Hkey. simpl.
  destruct (String.eqb_spec key "") as [->|_]; [done|]. simpl.
  rewrite Hinit. eexists _, _. split; [reflexivity|]. simpl. split; [|done].
  rewrite !lookup_insert_ne by done. by rewrite lookup_insert_eq.
Qed.

(** *** The steps of [build] *)

Lemma load_openapi_spec_Return_inv self u self' :
  _load_openapi_spec env self = (Return u, self') →
  ∃ spec routes,
    OpenAPILoader_load env (MCPServiceConfig.openapi_path_or_url (config self))
      = Return (spec, routes) ∧
    self' =
      set_http_routes (Some routes)
        (set_openapi_spec (Some spec)
           (set_logger
              (logger self ++ [Log INFO [Text "Loading OpenAPI specification..."]])
              self)).
Proof.
  unfold _load_openapi_spec. unfold_M. destruct self; simpl.
  destruct (OpenAPILoader_load env _) as [[spec routes]|e]; [|discriminate].
  intros H. inversion H; subst. by exists spec, routes.
Qed.

Lemma determine_base_url_Return_inv self u self' :
  _determine_base_url self = (Return u, self') →
  ∃ url records,
    self' = set_logger (logger self ++ records) (set_base_url (Some url) self).
Proof.
  unfold _determine_base_url. unfold_M.
  destruct (openapi_spec self) as [spec|]; [|discriminate].
  destruct (truthy spec); simpl; [|discriminate].
  destruct (dict_get spec "servers" empty_list) as [servers|e]; [|discriminate].
  destruct (servers_have_url servers) as [[|]|e]; [| |discriminate].
  - unfold result_bind.
    destruct (getitem0 servers) as [first|e]; [|discriminate].
    destruct (getitem first "url") as [url|e]; [|discriminate].
    intros H. inversion H; subst. eexists _, _. by destruct self.
  - intros H. inversion H; subst. eexists _, _.
    destruct self; simpl. by rewrite <- app_assoc.
Qed.

Lemma create_api_client_Return_inv self u self' :
  _create_api_client env self = (Return u, self') →
  ∃ url handler,
    base_url self = Some url ∧ truthy url = true ∧
    create_auth_handler env (MCPServiceConfig.auth (config self)) = Return handler ∧
    self' =
      set_logger
        (logger self ++
         [Log INFO [Text "Creating HTTP client with new authentication handler..."];
          Log INFO [Text "HTTP client created successfully with authentication."]])
        (set_api_client
           (Some {| AsyncClient.base_url := url;
                    AsyncClient.headers := default_headers;
                    AsyncClient.timeout := 30%Q;
                    AsyncClient.auth := Some handler;
                    AsyncClient.is_closed := false |})
           self).
Proof.
  unfold _create_api_client. unfold_M.
  destruct (base_url self) as [url|] eqn:Hurl; [|discriminate].
  destruct (truthy url) eqn:Htruthy; simpl; [|discriminate].
  destruct (create_auth_handler env _) as [handler|e] eqn:Hauth; [|discriminate].
  destruct (AsyncClient_init env _) as [e|]; [discriminate|].
  intros H. inversion H; subst. exists url, handler.
  repeat split; try done. destruct self; simpl. by rewrite <- app_assoc.
Qed.

Lemma create_mcp_server_first_record self srv self' :
  _create_mcp_server env self = (Return srv, self') →
  ∃ records,
    self' =
      set_logger
        (logger self ++
         Log INFO [Text "Creating FastMCP server '";
                   Text (MCPServiceConfig.name (config self)); Text "'..."]
         :: records)
        self.
Proof.
  intros H. unfold _create_mcp_server in H. unfold_M.
  destruct (openapi_spec self) as [spec|]; simpl in H; [|discriminate].
  destruct (truthy spec); simpl in H; [|discriminate].
  destruct (http_routes self) as [[|r routes]|]; simpl in H; try discriminate.
  destruct (api_client self) as [client|]; [|discriminate].
  destruct (configure_route_maps self (r :: routes)) as [route_maps|e];
    [|discriminate].
  destruct (FastMCP_from_openapi env _) as [e|]; [discriminate|].
  inversion H; subst; clear H.
  destruct self; simpl. eexists. rewrite <- !app_assoc. reflexivity.
Qed.

Lemma transform_tools_Return_inv self srv u self' :
  _transform_tools env srv self = (Return u, self') →
  ∃ routes,
    http_routes self = Some routes ∧ routes ≠ [] ∧
    transform_tools env (tool_transformer self routes srv) = None ∧
    self' = set_logger (logger self ++ [Log INFO [Text "Transforming tools..."]]) self.
Proof.
  unfold _transform_tools. unfold_M.
  destruct (http_routes self) as [[|r routes]|] eqn:Hroutes; try discriminate.
  destruct (transform_tools env _) as [e|] eqn:Hcall; [discriminate|].
  intros H. inversion H; subst. exists (r :: routes). by repeat split.
Qed.

(** The [try] suite returns exactly when all the steps return in turn. *)
Lemma build_steps_Return_iff self srv self' :
  build_steps env self = (Return srv, self') ↔ steps_return env self srv self'.
Proof.
  unfold build_steps, steps_return. split.
  - intros H.
    apply bind_Return_inv in H as (mappings & s1 & H1 & H).
    apply bind_Return_inv in H as ([] & s1' & Hset & H).
    inversion Hset; subst; clear Hset.
    apply bind_Return_inv in H as ([] & s2 & H2 & H).
    apply bind_Return_inv in H as ([] & s3 & H3 & H).
    apply bind_Return_inv in H as ([] & s4 & H4 & H).
    apply bind_Return_inv in H as (srv' & s5 & H5 & H).
    apply bind_Return_inv in H as ([] & s6 & H6 & H).
    inversion H; subst; clear H.
    by exists mappings, s1, s2, s3, s4, s5.
  - intros (mappings & s1 & s2 & s3 & s4 & s5 & H1 & H2 & H3 & H4 & H5 & H6).
    rewrite (bind_run _ _ _ _ _ H1).
    rewrite (bind_run _ _ s1 () (set_tool_mappings mappings s1) eq_refl).
    rewrite (bind_run _ _ _ _ _ H2), (bind_run _ _ _ _ _ H3),
      (bind_run _ _ _ _ _ H4), (bind_run _ _ _ _ _ H5), (bind_run _ _ _ _ _ H6).
    reflexivity.
Qed.

(** The handler of [build]: the failure is logged, a client that exists is
    closed, and the exception is raised again, unless closing raises. *)
Lemma build_handler_run e s :
  let logged :=
    set_logger
      (logger s ++ [Log ERROR [Text "Failed to build MCP server: "; FmtExn e]])
      s in
  build_handler env e s =
    match api_client s with
    | None => (Raise e, logged)
    | Some client =>
        match AsyncClient_aclose env client with
        | None =>
            (Raise e, set_api_client (Some (AsyncClient.aclose client)) logged)
        | Some e' => (Raise e', logged)
        end
    end.
Proof.
  unfold build_handler, aclose_api_client. unfold_M.
  destruct s as [cfg lg [client|] sp rt bu ids tm]; simpl; [|reflexivity].
  by destruct (AsyncClient_aclose env client).
Qed.

(** [build] returns exactly when its [try] suite does. *)
Lemma build_Return_iff self srv self' :
  build env self = (Return srv, self') ↔
  build_steps env self = (Return srv, self').
Proof.
  unfold build, try_except.
  destruct (build_steps env self) as [[srv0|e] s] eqn:Hsteps; [done|].
  simpl. split; [|discriminate].
  destruct (isinstance e Exception); [|discriminate].
  pose proof (build_handler_run e s) as Hhandler. simpl in Hhandler.
  rewrite Hhandler.
  destruct (api_client s) as [client|]; [|discriminate].
  destruct (AsyncClient_aclose env client); discriminate.
Qed.

(** C3.  [build] returns a server exactly when its steps return one after the
    other, each from the attributes the previous one left: first
    [_load_tool_mappings] (whose value becomes [self.tool_mappings]) and
    [_load_openapi_spec], then [_determine_base_url] and
    [_create_api_client], then [_create_mcp_server], and only then
    [_transform_tools]; the server it returns is the one
    [_create_mcp_server] returned.  The log of a successful run shows the
    order: the records that open the loading of the specification, the
    creation of the client, the creation of the server and the
    transformation of the tools come in this order, the last one at the
    end. *)
Theorem build_order self srv self' :
  (build env self = (Return srv, self') ↔
   ∃ mappings s1 s2 s3 s4 s5,
     _load_tool_mappings env self = (Return mappings, s1) ∧
     _load_openapi_spec env (set_tool_mappings mappings s1) = (Return (), s2) ∧
     _determine_base_url s2 = (Return (), s3) ∧
     _create_api_client env s3 = (Return (), s4) ∧
     _create_mcp_server env s4 = (Return srv, s5) ∧
     _transform_tools env srv s5 = (Return (), self')) ∧
  (build env self = (Return srv, self') →
   ∃ l1 l2 l3 l4,
     logger self' =
       logger self ++ l1
       ++ [Log INFO [Text "Loading OpenAPI specification..."]] ++ l2
       ++ [Log INFO [Text "Creating HTTP client with new authentication handler..."]]
       ++ l3
       ++ [Log INFO [Text "Creating FastMCP server '";
                     Text (MCPServiceConfig.name (config self)); Text "'..."]]
       ++ l4
       ++ [Log INFO [Text "Transforming tools..."]]).
Proof.
  split.
  - rewrite build_Return_iff. apply build_steps_Return_iff.
  - intros H. apply build_Return_iff, build_steps_Return_iff in H
      as (mappings & s1 & s2 & s3 & s4 & s5 & H1 & H2 & H3 & H4 & H5 & H6).
    destruct (load_tool_mappings_state self) as [l1 Hs1].
    rewrite H1 in Hs1. simpl in Hs1. subst s1.
    apply load_openapi_spec_Return_inv in H2 as (spec & routes & _ & ->).
    apply determine_base_url_Return_inv in H3 as (url & l2 & ->).
    apply create_api_client_Return_inv in H4 as (url' & handler & _ & _ & _ & ->).
    apply create_mcp_server_first_record in H5 as (l4 & ->).
    apply transform_tools_Return_inv in H6 as (routes' & _ & _ & _ & ->).
    exists l1, l2,
      [Log INFO [Text "HTTP client created successfully with authentication."]],
      l4.
    destruct self; simpl. rewrite <- !app_assoc. reflexivity.
Qed.

(** *** The table handed to the transformers *)

(** [_transform_tools] awaits [transform_tools] on the transformer it
    builds from the attributes. *)
Lemma transform_tools_run self srv routes :
  http_routes self = Some routes → routes ≠ [] →
  _transform_tools env srv self =
    lift_call (transform_tools env (tool_transformer self routes srv))
      (set_logger (logger self ++ [Log INFO [Text "Transforming tools..."]]) self).
Proof.
  intros Hroutes Hne. unfold _transform_tools. unfold_M. rewrite Hroutes.
  destruct routes as [|r routes]; [done|]. reflexivity.
Qed.

(** C2.  In a run of [build] that reaches the creation of the server, the
    dictionary that [_load_tool_mappings] returned is, unchanged, the
    [custom_tool_names] of both transformers: of the one given to
    [FastMCP.from_openapi] as [mcp_component_fn] (built without server) and of
    the one on which [_transform_tools] awaits [transform_tools] (built with
    the server); both also receive the routes the loader enumerated and the
    factory's one operation-id dictionary.  Hence the custom name either
    transformer has for a tool is the value the loaded table associates with
    the tool's operation id. *)
Theorem custom_names_from_table self mappings s1 s2 s3 s4 srv s5 :
  _load_tool_mappings env self = (Return mappings, s1) →
  _load_openapi_spec env (set_tool_mappings mappings s1) = (Return (), s2) →
  _determine_base_url s2 = (Return (), s3) →
  _create_api_client env s3 = (Return (), s4) →
  _create_mcp_server env s4 = (Return srv, s5) →
  ∃ spec routes,
    OpenAPILoader_load env (MCPServiceConfig.openapi_path_or_url (config self))
      = Return (spec, routes) ∧
    let at_creation :=
      ToolTransformer.Make None routes mappings (op_id_to_mangled_name self) in
    let at_transformation :=
      ToolTransformer.Make (Some srv) routes mappings (op_id_to_mangled_name self) in
    FastMCP.mcp_component_fn srv = at_creation ∧
    _transform_tools env srv s5 =
      lift_call (transform_tools env at_transformation)
        (set_logger (logger s5 ++ [Log INFO [Text "Transforming tools..."]]) s5) ∧
    ∀ op_id,
      ToolTransformer.custom_name at_creation op_id
        = match mappings with JObj table => table !! op_id | _ => None end ∧
      ToolTransformer.custom_name at_transformation op_id
        = match mappings with JObj table => table !! op_id | _ => None end.
Proof.
  intros H1 H2 H3 H4 H5.
  destruct (load_tool_mappings_state self) as [l1 Hs1].
  rewrite H1 in Hs1. simpl in Hs1. subst s1.
  apply load_openapi_spec_Return_inv in H2 as (spec & routes & Hload & ->).
  apply determine_base_url_Return_inv in H3 as (url & l2 & ->).
  apply create_api_client_Return_inv in H4 as (url' & handler & _ & _ & _ & ->).
  apply create_mcp_server_Return_inv in H5
    as (spec' & routes' & client & route_maps & _ & _ & Hroutes & Hne & _ & _ & _
        & -> & l4 & ->).
  simpl in Hroutes, Hload. injection Hroutes as <-.
  exists spec, routes. split; [exact Hload|]. simpl. split; [reflexivity|].
  split; [|done].
  by rewrite (transform_tools_run _ _ routes).
Qed.

(** *** Failures *)

(** The [try] suite raises exactly when one of the steps does. *)
Lemma build_steps_Raise_iff self e s :
  build_steps env self = (Raise e, s) ↔ step_raises env self e s.
Proof.
  unfold build_steps, step_raises. split.
  - intros H.
    apply bind_Raise_inv in H as [H|(mappings & s1 & H1 & H)]; [by left|].
    right. exists mappings, s1. split; [exact H1|].
    apply bind_Raise_inv in H as [H|([] & s1' & Hset & H)]; [discriminate|].
    inversion Hset; subst; clear Hset.
    apply bind_Raise_inv in H as [H|([] & s2 & H2 & H)]; [by left|].
    right. exists s2. split; [exact H2|].
    apply bind_Raise_inv in H as [H|([] & s3 & H3 & H)]; [by left|].
    right. exists s3. split; [exact H3|].
    apply bind_Raise_inv in H as [H|([] & s4 & H4 & H)]; [by left|].
    right. exists s4. split; [exact H4|].
    apply bind_Raise_inv in H as [H|(srv & s5 & H5 & H)]; [by left|].
    right. exists srv, s5. split; [exact H5|].
    apply bind_Raise_inv in H as [H|([] & s6 & H6 & H)]; [exact H|discriminate].
  - intros [H|(mappings & s1 & H1 & H)]; [by apply bind_run_raise|].
    rewrite (bind_run _ _ _ _ _ H1).
    rewrite (bind_run _ _ s1 () (set_tool_mappings mappings s1) eq_refl).
    destruct H as [H|(s2 & H2 & H)]; [by apply bind_run_raise|].
    rewrite (bind_run _ _ _ _ _ H2).
    destruct H as [H|(s3 & H3 & H)]; [by apply bind_run_raise|].
    rewrite (bind_run _ _ _ _ _ H3).
    destruct H as [H|(s4 & H4 & H)]; [by apply bind_run_raise|].
    rewrite (bind_run _ _ _ _ _ H4).
    destruct H as [H|(srv & s5 & H5 & H)]; [by apply bind_run_raise|].
    rewrite (bind_run _ _ _ _ _ H5).
    by apply bind_run_raise.
Qed.

(** A failure of the [try] suite goes through the handler when it is an
    instance of [Exception], and past it otherwise. *)
Lemma build_Raise_run self e s :
  build_steps env self = (Raise e, s) →
  build env self =
    if isinstance e Exception then build_handler env e s else (Raise e, s).
Proof.
  intros Hsteps. unfold build, try_except. rewrite Hsteps. simpl.
  by destruct (isinstance e Exception).
Qed.

(** C7 (amended).  If a step of [build] raises an exception [e], [build]
    raises too: it returns no server.  When [e] is an instance of
    [Exception], [build] logs the failure and, if a client has been created,
    awaits its [aclose]: when there is no client or [aclose] returns, [build]
    raises the same [e], the client being closed; when [aclose] raises, its
    exception comes out instead.  When [e] is not an instance of [Exception],
    it passes through [build] as it is: nothing is logged and the client is
    not closed. *)
Theorem build_failure self e s :
  step_raises env self e s →
  let logged :=
    set_logger
      (logger s ++ [Log ERROR [Text "Failed to build MCP server: "; FmtExn e]])
      s in
  (∀ srv s'', build env self ≠ (Return srv, s'')) ∧
  (isinstance e Exception = true →
   match api_client s with
   | None => build env self = (Raise e, logged)
   | Some client =>
       match AsyncClient_aclose env client with
       | None =>
           build env self =
             (Raise e, set_api_client (Some (AsyncClient.aclose client)) logged) ∧
           AsyncClient.is_closed (AsyncClient.aclose client) = true
       | Some e' => build env self = (Raise e', logged)
       end
   end) ∧
  (isinstance e Exception = false → build env self = (Raise e, s)).
Proof.
  intros Hstep logged. apply build_steps_Raise_iff in Hstep.
  pose proof (build_Raise_run self e s Hstep) as Hbuild.
  pose proof (build_handler_run e s) as Hhandler. simpl in Hhandler.
  fold logged in Hhandler.
  split; [|split].
  - intros srv s'' Hret. apply build_Return_iff in Hret. congruence.
  - intros Hinst. rewrite Hinst, Hhandler in Hbuild.
    destruct (api_client s) as [client|]; [|exact Hbuild].
    destruct (AsyncClient_aclose env client); [exact Hbuild|].
    split; [exact Hbuild|reflexivity].
  - intros Hinst. by rewrite Hinst in Hbuild.
Qed.

End Properties.

(** ** The sample deployment, run *)

Import MCPFactory.

(** The selection at work: two of the four routes are tools. *)
Lemma route_maps_selection_witness :
  ∃ srv self',
    _create_mcp_server Demo.env (Demo.loaded_factory "datainclusion" Demo.table)
      = (Return srv, self') ∧
    FastMCP.route_maps srv =
      [ RouteMap.Make (Some ["GET"]) (Some "^/structures$") RouteMap.TOOL;
        RouteMap.Make (Some ["GET"]) (Some "^/services/{id}$") RouteMap.TOOL;
        RouteMap.Make None None RouteMap.EXCLUDE ].
Proof.
  assert (∃ srv self',
            _create_mcp_server Demo.env
              (Demo.loaded_factory "datainclusion" Demo.table)
            = (Return srv, self')) as (srv & self' & Hrun).
  { eexists _, _. vm_compute. reflexivity. }
  exists srv, self'. split; [exact Hrun|].
  destruct (route_maps_selection Demo.env _ _ _ Hrun)
    as (routes & Hroutes & Hsel & _).
  destruct (Hsel eq_refl) as (table & Htable & -> & _).
  injection Hroutes as <-. injection Htable as <-.
  reflexivity.
Defined.

(** C1, as stated, fails: under another name than "datainclusion" the server
    is created with no route map at all, although two routes have an operation
    id that is a key of the table. *)
Lemma route_maps_selection_counterexample :
  ∃ srv self',
    _create_mcp_server Demo.env (Demo.loaded_factory "inclusion" Demo.table)
      = (Return srv, self') ∧
    FastMCP.route_maps srv = [] ∧
    map tool_route_map
      (List.filter (λ r, op_id_in r (dom Demo.names)) Demo.routes)
    ++ [exclude_route_map]
    = [ RouteMap.Make (Some ["GET"]) (Some "^/structures$") RouteMap.TOOL;
        RouteMap.Make (Some ["GET"]) (Some "^/services/{id}$") RouteMap.TOOL;
        RouteMap.Make None None RouteMap.EXCLUDE ] ∧
    FastMCP.route_maps srv ≠
      map tool_route_map
        (List.filter (λ r, op_id_in r (dom Demo.names)) Demo.routes)
      ++ [exclude_route_map].
Proof.
  eexists _, _. split; [vm_compute; reflexivity|].
  split; [reflexivity|]. split; [reflexivity|]. discriminate.
Qed.

(** The three files of the sample deployment and a missing one. *)
Example load_tool_mappings_table :
  (_load_tool_mappings Demo.env (Demo.factory "datainclusion" (Some "mappings.json"))).1
  = Return Demo.table.
Proof. reflexivity. Qed.

Example load_tool_mappings_missing :
  _load_tool_mappings Demo.env (Demo.factory "datainclusion" (Some "nowhere.json"))
  = (Return empty_dict,
     set_logger
       [Log WARNING [Text "Custom tool mappings file not found: ";
                     Text "nowhere.json"; Text ". ";
                     Text "Using empty mappings."]]
       (Demo.factory "datainclusion" (Some "nowhere.json"))).
Proof. reflexivity. Qed.

Example load_tool_mappings_not_json :
  (_load_tool_mappings Demo.env (Demo.factory "datainclusion" (Some "broken.json"))).1
  = Return empty_dict.
Proof. reflexivity. Qed.

Example load_tool_mappings_unset :
  (_load_tool_mappings Demo.env (Demo.factory "datainclusion" None)).1
  = Return empty_dict ∧
  (_load_tool_mappings Demo.env (Demo.factory "datainclusion" (Some ""))).1
  = Return empty_dict.
Proof. split; reflexivity. Qed.

(** C5, as stated, fails: a mappings file that exists but cannot be read makes
    [open] raise [PermissionError], which neither [except] clause catches, so
    [_load_tool_mappings] raises, and [build] with it. *)
Lemma load_tool_mappings_counterexample :
  let self := Demo.factory "datainclusion" (Some "locked.json") in
  isinstance (Exn PermissionError None) FileNotFoundError = false ∧
  isinstance (Exn PermissionError None) JSONDecodeError = false ∧
  _load_tool_mappings Demo.env self = (Raise (Exn PermissionError None), self) ∧
  (build Demo.env self).1 = Raise (Exn PermissionError None).
Proof. repeat split. Qed.

(** The base URL of the sample specification, and the default. *)
Lemma determine_base_url_cases_witness :
  base_url (_determine_base_url (Demo.factory_with_spec (Some Demo.spec))).2
  = Some (JStr "https://api.example.org") ∧
  base_url
    (_determine_base_url
       (Demo.factory_with_spec (Some (JObj (<["openapi" := JStr "3.1.0"]> ∅))))).2
  = Some (JStr "http://localhost:8000") ∧
  (_determine_base_url (Demo.factory_with_spec None)).1
  = Raise (Exn ValueError (Some "OpenAPI specification not loaded")).
Proof.
  pose proof (determine_base_url_cases (Demo.factory_with_spec (Some Demo.spec)))
    as [_ Hloaded].
  destruct (Hloaded _ eq_refl eq_refl) as [Hfound _].
  pose proof (determine_base_url_cases
                (Demo.factory_with_spec
                   (Some (JObj (<["openapi" := JStr "3.1.0"]> ∅)))))
    as [_ Hbare].
  destruct (Hbare _ eq_refl eq_refl) as [_ Hdefault].
  pose proof (determine_base_url_cases (Demo.factory_with_spec None))
    as [Hnone _].
  split; [|split].
  - by rewrite (Hfound _ [] (JStr "https://api.example.org") eq_refl eq_refl).
  - by rewrite (Hdefault (or_introl eq_refl)).
  - by rewrite (Hnone eq_refl).
Defined.

(** C6, as stated, fails: with ["servers": [null]] the first element has no
    key "url", yet [base_url] is not set to the default: the membership test
    ["url" in None] raises [TypeError] and [base_url] stays unset. *)
Lemma determine_base_url_counterexample :
  let self := Demo.factory_with_spec (Some (JObj (<["servers" := JArr [JNull]]> ∅))) in
  _determine_base_url self = (Raise (Exn TypeError None), self) ∧
  base_url (_determine_base_url self).2 = None ∧
  base_url (_determine_base_url self).2 ≠ Some default_base_url.
Proof. repeat split. discriminate. Qed.

(** Two more inputs outside the amended claim: a first element that is a
    string holding "url" passes the membership test and fails at the
    subscript; an empty document counts as not loaded. *)
Example determine_base_url_string_server :
  let self :=
    Demo.factory_with_spec
      (Some (JObj (<["servers" := JArr [JStr "https://url.example.org"]]> ∅))) in
  _determine_base_url self = (Raise (Exn TypeError None), self).
Proof. reflexivity. Qed.

Example determine_base_url_empty_document :
  let self := Demo.factory_with_spec (Some (JObj ∅)) in
  _determine_base_url self =
    (Raise (Exn ValueError (Some "OpenAPI specification not loaded")), self).
Proof. reflexivity. Qed.

(** The client of the sample deployment. *)
Lemma create_api_client_delegates_witness :
  ∃ self',
    _create_api_client Demo.env
      (set_base_url (Some (JStr "https://api.example.org"))
         (Demo.factory "datainclusion" None))
    = (Return (), self') ∧
    api_client self' = Some Demo.client.
Proof.
  destruct (create_api_client_delegates Demo.env
              (set_base_url (Some (JStr "https://api.example.org"))
                 (Demo.factory "datainclusion" None))
              (JStr "https://api.example.org") "handler for bearer"
              eq_refl eq_refl eq_refl eq_refl)
    as (self' & Hrun & Hclient & _).
  exists self'. split; [exact Hrun|exact Hclient].
Defined.

(** A complete run of [build] on the sample deployment. *)
Lemma build_order_witness :
  ∃ srv self',
    build Demo.env (Demo.factory "datainclusion" (Some "mappings.json"))
      = (Return srv, self') ∧
    ∃ mappings s1 s2 s3 s4 s5,
      _load_tool_mappings Demo.env
        (Demo.factory "datainclusion" (Some "mappings.json"))
        = (Return mappings, s1) ∧
      _load_openapi_spec Demo.env (set_tool_mappings mappings s1) = (Return (), s2) ∧
      _determine_base_url s2 = (Return (), s3) ∧
      _create_api_client Demo.env s3 = (Return (), s4) ∧
      _create_mcp_server Demo.env s4 = (Return srv, s5) ∧
      _transform_tools Demo.env srv s5 = (Return (), self').
Proof.
  assert (∃ srv self',
            build Demo.env (Demo.factory "datainclusion" (Some "mappings.json"))
              = (Return srv, self')) as (srv & self' & Hrun).
  { eexists _, _. vm_compute. reflexivity. }
  exists srv, self'. split; [exact Hrun|].
  exact (proj1 (proj1 (build_order Demo.env _ srv self')) Hrun).
Defined.

(** The transformers of the sample deployment receive the table of
    "mappings.json". *)
Lemma custom_names_from_table_witness :
  ∃ (srv : FastMCP.t string) s5,
    ToolTransformer.custom_tool_names (FastMCP.mcp_component_fn srv) = Demo.table ∧
    ToolTransformer.custom_name (FastMCP.mcp_component_fn srv) "list_structures"
      = Some (JStr "list_all_structures") ∧
    _transform_tools Demo.env srv s5 =
      (Return (),
       set_logger (logger s5 ++ [Log INFO [Text "Transforming tools..."]]) s5).
Proof.
  assert (∃ mappings s1 s2 s3 s4 srv s5,
            _load_tool_mappings Demo.env
              (Demo.factory "datainclusion" (Some "mappings.json"))
              = (Return mappings, s1) ∧
            _load_openapi_spec Demo.env (set_tool_mappings mappings s1)
              = (Return (), s2) ∧
            _determine_base_url s2 = (Return (), s3) ∧
            _create_api_client Demo.env s3 = (Return (), s4) ∧
            _create_mcp_server Demo.env s4 = (Return srv, s5))
    as (mappings & s1 & s2 & s3 & s4 & srv & s5 & H1 & H2 & H3 & H4 & H5).
  { eexists _, _, _, _, _, _, _.
    repeat split; vm_compute; reflexivity. }
  destruct (custom_names_from_table Demo.env _ _ _ _ _ _ _ _ H1 H2 H3 H4 H5)
    as (spec & routes & _ & Hfn & Hrun & Hname).
  injection H1 as <- _.
  exists srv, s5. rewrite Hfn. split; [reflexivity|]. split.
  - by rewrite (proj1 (Hname "list_structures")).
  - exact Hrun.
Defined.

(** A run of [build] whose last step fails: the client created in the fourth
    step is closed and the exception of [transform_tools] comes out. *)
Lemma build_failure_witness :
  ∃ s',
    build Demo.failing_env (Demo.factory "datainclusion" (Some "mappings.json"))
      = (Raise (Exn RuntimeError (Some "tool not found")), s') ∧
    api_client s' = Some (AsyncClient.aclose Demo.client).
Proof.
  assert (∃ s,
            step_raises Demo.failing_env
              (Demo.factory "datainclusion" (Some "mappings.json"))
              (Exn RuntimeError (Some "tool not found")) s ∧
            api_client s = Some Demo.client) as (s & Hstep & Hclient).
  { eexists. split.
    - right. eexists _, _. split; [vm_compute; reflexivity|].
      right. eexists. split; [vm_compute; reflexivity|].
      right. eexists. split; [vm_compute; reflexivity|].
      right. eexists. split; [vm_compute; reflexivity|].
      right. eexists _, _. split; [vm_compute; reflexivity|].
      vm_compute. reflexivity.
    - reflexivity. }
  destruct (build_failure Demo.failing_env _ _ _ Hstep) as (_ & Hcaught & _).
  specialize (Hcaught eq_refl). rewrite Hclient in Hcaught.
  destruct Hcaught as [Hbuild _].
  eexists. split; [exact Hbuild|reflexivity].
Defined.

(** C7, as stated, fails: when the task is cancelled while the tools are
    transformed, the step raises [asyncio.CancelledError], which is not an
    instance of [Exception]; it passes the handler, and the client created in
    the fourth step is left open. *)
Lemma build_failure_counterexample :
  let run :=
    build Demo.cancelled_env
      (Demo.factory "datainclusion" (Some "mappings.json")) in
  run.1 = Raise (Exn CancelledError None) ∧
  api_client run.2 = Some Demo.client ∧
  AsyncClient.is_closed Demo.client = false.
Proof. split; [|split]; vm_compute; reflexivity. Qed.

(** When closing the client fails in the handler, the exception of [aclose]
    comes out of [build] instead of the one of the step. *)
Example build_closing_fails :
  (build Demo.unclosable_env
     (Demo.factory "datainclusion" (Some "mappings.json"))).1
  = Raise (Exn OSError (Some "connection reset")).
Proof. vm_compute. reflexivity. Qed.

(** A run of [build] that fails before any client exists: nothing is
    closed. *)
Example build_fails_before_client :
  let self := Demo.factory "datainclusion" (Some "locked.json") in
  build Demo.env self =
    (Raise (Exn PermissionError None),
     set_logger
       [Log ERROR [Text "Failed to build MCP server: ";
                   FmtExn (Exn PermissionError None)]]
       self).
Proof. reflexivity. Qed.

(** The server of the sample deployment: two tools, everything else
    excluded, and the health route. *)
Example build_sample_server :
  match (build Demo.env (Demo.factory "datainclusion" (Some "mappings.json"))).1 with
  | Return srv =>
      FastMCP.route_maps srv =
        [ RouteMap.Make (Some ["GET"]) (Some "^/structures$") RouteMap.TOOL;
          RouteMap.Make (Some ["GET"]) (Some "^/services/{id}$") RouteMap.TOOL;
          RouteMap.Make None None RouteMap.EXCLUDE ] ∧
      FastMCP.custom_routes srv =
        [ {| FastMCP.route_path := "/health";
             FastMCP.route_methods := ["GET"];
             FastMCP.endpoint := {| content := "OK"; status_code := 200 |} |} ] ∧
      FastMCP.client srv = Demo.client
  | Raise _ => False
  end.
Proof. vm_compute. repeat split. Qed.

(** With a missing mappings file the build goes on with an empty table:
    under the name "datainclusion" every route is excluded. *)
Example build_without_mappings_file :
  match (build Demo.env (Demo.factory "datainclusion" (Some "nowhere.json"))).1 with
  | Return srv =>
      FastMCP.route_maps srv = [RouteMap.Make None None RouteMap.EXCLUDE] ∧
      ToolTransformer.custom_tool_names (FastMCP.mcp_component_fn srv) = empty_dict
  | Raise _ => False
  end.
Proof. vm_compute. repeat split. Qed.

(** [utils.create_api_client] with and without an API key in the
    environment. *)
Example utils_create_api_client_with_key :
  match utils.create_api_client Demo.keyed_env "https://api.example.org" [] with
  | (Return client, out) =>
      AsyncClient.headers client !! "Authorization" = Some "Bearer secret-1234" ∧
      AsyncClient.auth client = None ∧
      out = ["✅ Using DATA_INCLUSION_API_KEY from environment variable (key: ***1234)"]
  | (Raise _, _) => False
  end.
Proof. vm_compute. repeat split. Qed.

Example utils_create_api_client_without_key :
  match utils.create_api_client Demo.env "https://api.example.org" [] with
  | (Return client, out) =>
      AsyncClient.headers client = MCPFactory.default_headers ∧
      length out = 3
  | (Raise _, _) => False
  end.
Proof. vm_compute. repeat split. Qed.

(** * Further properties of the factory and of [utils] *)

(** ** What the methods leave alone *)

(** A relation between the attributes before and after, that is kept by
    appending to the log and by the assignments to [base_url], [api_client] and
    [tool_mappings], is kept by every method but [_load_openapi_spec]. *)
Section Frame.
Context {AuthConfig AuthHandler : Type}.
Context (env : Env AuthConfig AuthHandler).
Implicit Types (self : MCPFactory.t AuthConfig AuthHandler).

Context (R : relation (MCPFactory.t AuthConfig AuthHandler)) `{!PreOrder R}.
Hypothesis R_log : ∀ r self, R self (set_logger (logger self ++ [r]) self).
Hypothesis R_base_url : ∀ v self, R self (set_base_url v self).
Hypothesis R_api_client : ∀ v self, R self (set_api_client v self).
Hypothesis R_tool_mappings : ∀ v self, R self (set_tool_mappings v self).

Lemma frame_bind {A B} (m : M (MCPFactory.t AuthConfig AuthHandler) A)
    (f : A → M (MCPFactory.t AuthConfig AuthHandler) B) :
  (∀ s, R s (m s).2) → (∀ a s, R s (f a s).2) →
  ∀ s, R s ((m ≫= f) s).2.
Proof.
  intros Hm Hf s. unfold mbind, M_bind.
  specialize (Hm s). destruct (m s) as [[a|e] s1]; simpl in *; [|done].
  by etrans.
Qed.

Lemma frame_try_except {A} (body : M (MCPFactory.t AuthConfig AuthHandler) A)
    handlers :
  (∀ s, R s (body s).2) →
  Forall (λ h, ∀ e s, R s (h.2 e s).2) handlers →
  ∀ s, R s (try_except body handlers s).2.
Proof.
  intros Hbody Hhandlers s. unfold try_except.
  specialize (Hbody s). destruct (body s) as [[a|e] s1]; simpl in *; [done|].
  destruct (select_handler handlers e) as [h|] eqn:Hsel; [|done].
  etrans; [exact Hbody|].
  clear Hbody. induction Hhandlers as [|[c h'] rest Hh _ IH]; simpl in Hsel;
    [discriminate|].
  destruct (isinstance e c); [|by apply IH].
  injection Hsel as <-. apply Hh.
Qed.

Lemma frame_log l m self : R self (log l m self).2.
Proof. apply R_log. Qed.

Lemma frame_pure {A} (r : result A) self :
  R self ((lift r : M (MCPFactory.t AuthConfig AuthHandler) A) self).2.
Proof. reflexivity. Qed.

Lemma frame_call o self :
  R self ((lift_call o : M (MCPFactory.t AuthConfig AuthHandler) ()) self).2.
Proof. by destruct o. Qed.

(** One step of a method. *)
Ltac frame_step :=
  first
    [ reflexivity
    | apply frame_log
    | apply frame_call
    | apply R_base_url
    | apply R_api_client
    | apply R_tool_mappings
    | apply frame_bind; [intros ?|intros ? ?]
    | match goal with
      | |- context [match ?x with _ => _ end] => destruct x
      end ].

Lemma load_tool_mappings_frame self : R self (_load_tool_mappings env self).2.
Proof.
  unfold _load_tool_mappings. revert self. apply frame_bind; [done|].
  intros self s.
  destruct (MCPServiceConfig.tool_mappings_file (config self)) as [file|].
  - destruct (negb (truthy_str (Some file))).
    + revert s. repeat frame_step.
    + revert s. apply frame_try_except.
      * repeat frame_step.
      * constructor; [|constructor; [|constructor]];
          intros e s; simpl; apply R_log.
  - revert s. repeat frame_step.
Qed.

Lemma determine_base_url_frame self : R self (_determine_base_url self).2.
Proof. unfold _determine_base_url. revert self. repeat frame_step. Qed.

Lemma create_api_client_frame self : R self (_create_api_client env self).2.
Proof. unfold _create_api_client. revert self. repeat frame_step. Qed.

Lemma create_mcp_server_frame self : R self (_create_mcp_server env self).2.
Proof. unfold _create_mcp_server. revert self. repeat frame_step. Qed.

Lemma transform_tools_frame srv self : R self (_transform_tools env srv self).2.
Proof. unfold _transform_tools. revert self. repeat frame_step. Qed.

Lemma build_handler_frame e self : R self (build_handler env e self).2.
Proof.
  unfold build_handler, aclose_api_client. revert self. repeat frame_step.
Qed.

Lemma cleanup_frame self : R self (cleanup env self).2.
Proof. unfold cleanup, aclose_api_client. revert self. repeat frame_step. Qed.

(** [build], given what [_load_openapi_spec] does to the relation. *)
Lemma build_frame :
  (∀ self, R self (_load_openapi_spec env self).2) →
  ∀ self, R self (build env self).2.
Proof.
  intros Hload. unfold build. apply frame_try_except.
  - unfold build_steps.
    apply frame_bind; [apply load_tool_mappings_frame|intros mappings].
    apply frame_bind; [intros s; apply R_tool_mappings|intros _].
    apply frame_bind; [apply Hload|intros _].
    apply frame_bind; [apply determine_base_url_frame|intros _].
    apply frame_bind; [apply create_api_client_frame|intros _].
    apply frame_bind; [apply create_mcp_server_frame|intros srv].
    apply frame_bind; [apply transform_tools_frame|intros _].
    done.
  - constructor; [|constructor]. simpl. intros e. apply build_handler_frame.
Qed.

End Frame.

Section Invariants.
Context {AuthConfig AuthHandler : Type}.
Context (env : Env AuthConfig AuthHandler).
Implicit Types (self : MCPFactory.t AuthConfig AuthHandler).

(** Unfolding the monad in a hypothesis or in the goal. *)
Ltac unfold_M :=
  unfold mbind, M_bind, mret, M_ret, get, raise, logger_info, logger_warning,
    logger_error, log, modify, lift, lift_call, try_except in *.

#[local] Instance keeps_preorder :
  PreOrder (@keeps AuthConfig AuthHandler).
Proof.
  split.
  - by intros self.
  - intros self1 self2 self3 (Hc1 & Hi1 & Hl1) (Hc2 & Hi2 & Hl2).
    repeat split.
    + by rewrite Hc2.
    + by rewrite Hi2.
    + by etrans.
Qed.

(** X1.  Whatever the outcome of [build], be it a server or an exception, it
    leaves the configuration and the identity of the operation-id dictionary
    as they were and only appends to the log: no record is removed or
    changed.  The same holds for [cleanup]. *)
Theorem build_keeps self :
  keeps self (build env self).2 ∧ keeps self (cleanup env self).2.
Proof.
  assert (Hlog : ∀ r (s : MCPFactory.t AuthConfig AuthHandler),
            keeps s (set_logger (logger s ++ [r]) s)).
  { intros r s. repeat split. simpl. by apply prefix_app_r. }
  split.
  - apply (build_frame env keeps); try done.
    intros s. unfold _load_openapi_spec. unfold_M.
    destruct (OpenAPILoader_load env _) as [[spec routes]|e]; simpl;
      repeat split; simpl; by apply prefix_app_r.
  - by apply (cleanup_frame env keeps).
Qed.

#[local] Instance loaded_together_preorder : PreOrder (loaded_together env).
Proof.
  split.
  - intros self. split; [done|by left].
  - intros self1 self2 self3 [Hc1 H1] [Hc2 H2]. split; [by rewrite Hc2|].
    destruct H2 as [[Hs2 Hr2]|(spec & routes & Hl & Hs2 & Hr2)].
    + destruct H1 as [[Hs1 Hr1]|(spec & routes & Hl & Hs1 & Hr1)].
      * left. split; [by rewrite Hs2|by rewrite Hr2].
      * right. exists spec, routes. split; [done|].
        split; [by rewrite Hs2|by rewrite Hr2].
    + right. exists spec, routes. rewrite <- Hc1. by repeat split.
Qed.

Lemma load_openapi_spec_loaded_together self :
  loaded_together env self (_load_openapi_spec env self).2.
Proof.
  unfold loaded_together, _load_openapi_spec. unfold_M.
  destruct (OpenAPILoader_load env _) as [[spec routes]|e] eqn:Hl; simpl.
  - split; [done|]. right. by exists spec, routes.
  - split; [done|]. by left.
Qed.

(** X2.  The specification and the routes go together: after
    [_load_openapi_spec], and after [build] whatever its outcome, either both
    attributes are as they were, or both hold what one call of the loader on
    the configured path returned. *)
Theorem spec_and_routes_go_together self :
  let together self' :=
    (openapi_spec self' = openapi_spec self ∧
     http_routes self' = http_routes self) ∨
    (∃ spec routes,
       OpenAPILoader_load env
         (MCPServiceConfig.openapi_path_or_url (config self))
       = Return (spec, routes) ∧
       openapi_spec self' = Some spec ∧ http_routes self' = Some routes) in
  together (_load_openapi_spec env self).2 ∧ together (build env self).2.
Proof.
  split.
  - apply load_openapi_spec_loaded_together.
  - apply (build_frame env (loaded_together env)); try (by split; [|left]).
    apply load_openapi_spec_loaded_together.
Qed.

(** ** A successful build *)

(** X3.  When [build] returns a server, the factory holds an open client,
    and it is the client the server was given; the client's base URL is the
    determined [base_url], which is truthy; the server was built from the
    loaded specification, which is non-empty, under the configured name, with
    the loaded routes, of which there is at least one, and the loaded table
    given to its transformer; and its only custom route is [GET /health],
    answering "OK" with status 200. *)
Theorem build_success_state self srv self' :
  build env self = (Return srv, self') →
  ∃ client url routes,
    api_client self' = Some client ∧
    AsyncClient.is_closed client = false ∧
    FastMCP.client srv = client ∧
    base_url self' = Some url ∧ truthy url = true ∧
    AsyncClient.base_url client = url ∧
    openapi_spec self' = Some (FastMCP.openapi_spec srv) ∧
    truthy (FastMCP.openapi_spec srv) = true ∧
    http_routes self' = Some routes ∧ routes ≠ [] ∧
    ToolTransformer.http_routes (FastMCP.mcp_component_fn srv) = routes ∧
    tool_mappings self' =
      ToolTransformer.custom_tool_names (FastMCP.mcp_component_fn srv) ∧
    FastMCP.name srv = MCPServiceConfig.name (config self) ∧
    FastMCP.custom_routes srv =
      [ {| FastMCP.route_path := "/health";
           FastMCP.route_methods := ["GET"];
           FastMCP.endpoint := {| content := "OK"; status_code := 200 |} |} ].
Proof.
  intros H. apply build_Return_iff, build_steps_Return_iff in H
    as (mappings & s1 & s2 & s3 & s4 & s5 & H1 & H2 & H3 & H4 & H5 & H6).
  destruct (load_tool_mappings_state env self) as [l1 Hs1].
  rewrite H1 in Hs1. simpl in Hs1. subst s1.
  apply load_openapi_spec_Return_inv in H2 as (spec & routes & Hload & ->).
  apply determine_base_url_Return_inv in H3 as (url & l2 & ->).
  apply create_api_client_Return_inv in H4
    as (url' & handler & Hurl & Htruthy & _ & ->).
  apply create_mcp_server_Return_inv in H5
    as (spec' & routes' & client & route_maps & Hspec & Hst & Hroutes & Hne
        & Hclient & _ & _ & -> & l4 & ->).
  apply transform_tools_Return_inv in H6 as (routes'' & _ & _ & _ & ->).
  simpl in *. injection Hurl as <-. injection Hspec as <-.
  injection Hroutes as <-. injection Hclient as <-.
  eexists _, url, routes. by repeat split.
Qed.


(** ** Failures of the steps *)

Lemma load_openapi_spec_run self spec routes :
  OpenAPILoader_load env (MCPServiceConfig.openapi_path_or_url (config self))
    = Return (spec, routes) →
  _load_openapi_spec env self =
    (Return (),
     set_http_routes (Some routes)
       (set_openapi_spec (Some spec)
          (set_logger
             (logger self ++ [Log INFO [Text "Loading OpenAPI specification..."]])
             self))).
Proof.
  intros Hload. unfold _load_openapi_spec. unfold_M. simpl.
  by rewrite Hload.
Qed.

(** X4.  A specification whose first server has a falsy "url" (an empty
    string, [null], zero) does not get the default base URL: the value is
    stored as [base_url] and [build] then fails with the [ValueError] of
    [_create_api_client], "Base URL not determined".  (If the factory already
    held a client from an earlier build and closing it in the handler raises,
    that exception comes out instead.) *)
Theorem build_falsy_url self mappings s1 (doc first : gmap string json) routes
    rest url :
  _load_tool_mappings env self = (Return mappings, s1) →
  OpenAPILoader_load env (MCPServiceConfig.openapi_path_or_url (config self))
    = Return (JObj doc, routes) →
  truthy (JObj doc) = true →
  doc !! "servers" = Some (JArr (JObj first :: rest)) →
  first !! "url" = Some url → truthy url = false →
  ∃ self',
    base_url self' = Some url ∧
    match api_client self with
    | None =>
        build env self =
          (Raise (Exn ValueError (Some "Base URL not determined")), self')
    | Some client =>
        match AsyncClient_aclose env client with
        | None =>
            build env self =
              (Raise (Exn ValueError (Some "Base URL not determined")), self')
        | Some e' => build env self = (Raise e', self')
        end
    end.
Proof.
  intros H1 Hload Htruthy Hservers Hurl Hfalsy.
  destruct (load_tool_mappings_state env self) as [l1 Hs1].
  rewrite H1 in Hs1. simpl in Hs1. subst s1.
  set (s1 := set_tool_mappings mappings (set_logger (logger self ++ l1) self)).
  assert (H2 := load_openapi_spec_run s1 (JObj doc) routes Hload).
  assert (H3 := determine_base_url_found
                  (_load_openapi_spec env s1).2 doc first rest url).
  rewrite H2 in H3. specialize (H3 eq_refl Htruthy Hservers Hurl).
  match type of H3 with _ = (_, ?s) => set (s3 := s) in * end.
  assert (Hsteps : build_steps env self =
            (Raise (Exn ValueError (Some "Base URL not determined")), s3)).
  { unfold build_steps.
    rewrite (bind_run _ _ _ _ _ H1).
    rewrite (bind_run (modify (set_tool_mappings mappings)) _ _ () s1 eq_refl).
    rewrite (bind_run _ _ _ _ _ H2), (bind_run _ _ _ _ _ H3).
    apply bind_run_raise.
    apply create_api_client_no_base_url. simpl. exact Hfalsy. }
  pose proof (build_Raise_run env self _ _ Hsteps) as Hbuild.
  change (isinstance (Exn ValueError (Some "Base URL not determined")) Exception)
    with true in Hbuild.
  pose proof (build_handler_run env
                (Exn ValueError (Some "Base URL not determined")) s3)
    as Hhandler.
  simpl in Hhandler. rewrite Hhandler in Hbuild.
  destruct (api_client self) as [client|].
  - destruct (AsyncClient_aclose env client).
    + eexists. split; [|exact Hbuild]. reflexivity.
    + eexists. split; [|exact Hbuild]. reflexivity.
  - eexists. split; [|exact Hbuild]. reflexivity.
Qed.

(** X5.  The guards of the steps raise their [ValueError] before anything
    is logged, called or assigned: [self] is as before.
    [_create_mcp_server] tests the specification first, then the routes, then
    the client; an empty specification counts as not loaded and an empty list
    of routes as routes not loaded.  [_transform_tools] tests the routes and
    [_create_api_client] the base URL. *)
Theorem guards_raise_before_any_effect self srv :
  (truthy_opt (openapi_spec self) = false →
   _create_mcp_server env self =
     (Raise (Exn ValueError (Some "OpenAPI specification not loaded")), self)) ∧
  (truthy_opt (openapi_spec self) = true →
   truthy_list (http_routes self) = false →
   _create_mcp_server env self =
     (Raise (Exn ValueError (Some "HTTP routes not loaded")), self)) ∧
  (truthy_opt (openapi_spec self) = true →
   truthy_list (http_routes self) = true →
   api_client self = None →
   _create_mcp_server env self =
     (Raise (Exn ValueError (Some "API client not created")), self)) ∧
  (truthy_list (http_routes self) = false →
   _transform_tools env srv self =
     (Raise (Exn ValueError (Some "HTTP routes not loaded")), self)) ∧
  (truthy_opt (base_url self) = false →
   _create_api_client env self =
     (Raise (Exn ValueError (Some "Base URL not determined")), self)).
Proof.
  repeat split.
  - intros Hspec. unfold _create_mcp_server. unfold_M. by rewrite Hspec.
  - intros Hspec Hroutes. unfold _create_mcp_server. unfold_M.
    by rewrite Hspec, Hroutes.
  - intros Hspec Hroutes Hclient. unfold _create_mcp_server. unfold_M.
    rewrite Hspec, Hroutes, Hclient. simpl.
    destruct (openapi_spec self); [|discriminate].
    destruct (http_routes self) as [[|? ?]|]; try discriminate. reflexivity.
  - intros Hroutes. unfold _transform_tools. unfold_M.
    destruct (http_routes self) as [[|? ?]|]; try discriminate; reflexivity.
  - apply create_api_client_no_base_url.
Qed.

(** X6.  On a factory that [__init__] has just made, every step that needs
    the result of an earlier one raises its [ValueError] and changes nothing,
    and [cleanup] does nothing. *)
Theorem new_factory_steps_out_of_order (cfg : MCPServiceConfig.t AuthConfig)
    records fresh srv :
  let self := __init__ cfg records fresh in
  _determine_base_url self =
    (Raise (Exn ValueError (Some "OpenAPI specification not loaded")), self) ∧
  _create_api_client env self =
    (Raise (Exn ValueError (Some "Base URL not determined")), self) ∧
  _create_mcp_server env self =
    (Raise (Exn ValueError (Some "OpenAPI specification not loaded")), self) ∧
  _transform_tools env srv self =
    (Raise (Exn ValueError (Some "HTTP routes not loaded")), self) ∧
  cleanup env self = (Return (), self).
Proof. by repeat split. Qed.

(** X7.  When the loaded mappings are not a dictionary (the file holds a
    JSON list, string or number), [_create_mcp_server] under the name
    "datainclusion" raises [AttributeError] at [self.tool_mappings.keys()],
    after its first log record and before any server is made; under another
    name the mappings are not looked at and the server is created, with no
    route map. *)
Theorem mappings_not_a_dictionary self spec routes client :
  openapi_spec self = Some spec → truthy spec = true →
  http_routes self = Some routes → routes ≠ [] →
  api_client self = Some client →
  (∀ table, tool_mappings self ≠ JObj table) →
  (MCPServiceConfig.name (config self) = "datainclusion" →
   _create_mcp_server env self =
     (Raise (Exn AttributeError None),
      set_logger
        (logger self ++
         [Log INFO [Text "Creating FastMCP server '";
                    Text (MCPServiceConfig.name (config self)); Text "'..."]])
        self)) ∧
  (MCPServiceConfig.name (config self) ≠ "datainclusion" →
   FastMCP_from_openapi env (from_openapi self spec routes client []) = None →
   ∃ self',
     _create_mcp_server env self =
       (Return (FastMCP.custom_route "/health" ["GET"] health_check
                  (from_openapi self spec routes client [])), self')).
Proof.
  intros Hspec Htruthy Hroutes Hne Hclient Hnodict. split.
  - intros Hname. unfold _create_mcp_server. unfold_M.
    rewrite Hspec, Hroutes, Hclient. simpl. rewrite Htruthy. simpl.
    destruct routes as [|r routes]; [done|]. simpl.
    unfold configure_route_maps. rewrite Hname. simpl.
    destruct (tool_mappings self) as [| | | | | |table] eqn:Hm; try reflexivity.
    by destruct (Hnodict table).
  - intros Hname Hcall.
    apply create_mcp_server_Return; try done.
    by apply configure_route_maps_other.
Qed.

(** ** Route maps *)

Lemma filter_none {A} (f : A → bool) (l : list A) :
  (∀ x, x ∈ l → f x = false) → List.filter f l = [].
Proof.
  induction l as [|x l IH]; intros H; simpl; [done|].
  rewrite (H x) by apply list_elem_of_here.
  apply IH. intros y Hy. apply H. by apply list_elem_of_further.
Qed.

(** X8.  Under the name "datainclusion", when no enumerated route has an
    operation id that is a key of the loaded table (as with the empty table of
    a missing or invalid mappings file), the server [build] returns has the
    single route map [EXCLUDE]: no route becomes a tool. *)
Theorem build_without_selected_route self (table : gmap string json) s1 spec
    routes srv self' :
  MCPServiceConfig.name (config self) = "datainclusion" →
  _load_tool_mappings env self = (Return (JObj table), s1) →
  OpenAPILoader_load env (MCPServiceConfig.openapi_path_or_url (config self))
    = Return (spec, routes) →
  (∀ r, r ∈ routes → op_id_in r (dom table) = false) →
  build env self = (Return srv, self') →
  FastMCP.route_maps srv = [exclude_route_map].
Proof.
  intros Hname Hload Hloader Hnone H.
  apply build_Return_iff, build_steps_Return_iff in H
    as (mappings & s1' & s2 & s3 & s4 & s5 & H1 & H2 & H3 & H4 & H5 & H6).
  rewrite Hload in H1. injection H1 as <- <-.
  destruct (load_tool_mappings_state env self) as [l1 Hs1].
  rewrite Hload in Hs1. simpl in Hs1. subst s1.
  apply load_openapi_spec_Return_inv in H2 as (spec' & routes' & Hload' & ->).
  simpl in Hload'. rewrite Hloader in Hload'. injection Hload' as <- <-.
  apply determine_base_url_Return_inv in H3 as (url & l2 & ->).
  apply create_api_client_Return_inv in H4 as (url' & handler & _ & _ & _ & ->).
  apply create_mcp_server_Return_inv in H5
    as (spec' & routes' & client & route_maps & _ & _ & Hroutes & _ & _ & Hmaps
        & _ & -> & _).
  simpl in Hroutes. injection Hroutes as <-.
  rewrite (configure_route_maps_datainclusion _ routes table) in Hmaps by done.
  injection Hmaps as <-. simpl. by rewrite filter_none.
Qed.

Lemma length_append (s t : string) :
  String.length (s +:+ t) = String.length s + String.length t.
Proof. induction s as [|a s IH]; simpl; [done|]. by rewrite IH. Qed.

Lemma append_inj_r (s1 s2 t : string) : s1 +:+ t = s2 +:+ t → s1 = s2.
Proof.
  intros H.
  assert (Hlen : String.length s1 = String.length s2).
  { apply (f_equal String.length) in H.
    rewrite !length_append in H. lia. }
  revert s2 H Hlen.
  induction s1 as [|a s1 IH]; intros [|b s2] H Hlen; simpl in *;
    try discriminate; [done|].
  injection H as -> H. f_equal. apply IH; [exact H|lia].
Qed.

(** X9.  The route map of a selected route determines its method and its
    path, and nothing else of the route: two routes get the same route map
    exactly when they have the same method and the same path. *)
Theorem tool_route_map_inj (r1 r2 : HTTPRoute.t) :
  tool_route_map r1 = tool_route_map r2 ↔
  HTTPRoute.method r1 = HTTPRoute.method r2 ∧
  HTTPRoute.path r1 = HTTPRoute.path r2.
Proof.
  unfold tool_route_map. split.
  - intros H. injection H as Hm Hp. split; [exact Hm|].
    change (HTTPRoute.path r1 +:+ "$" = HTTPRoute.path r2 +:+ "$") in Hp.
    by apply append_inj_r in Hp.
  - by intros [-> ->].
Qed.

(** ** Cleaning up *)

(** X10.  [cleanup] does nothing without a client.  With a client it logs
    that it is closing and awaits [aclose]: when [aclose] returns, the client
    is closed, the success is logged and no other attribute changes; when
    [aclose] raises, the exception comes out of [cleanup] after the first
    record only. *)
Theorem cleanup_closes self :
  match api_client self with
  | None => cleanup env self = (Return (), self)
  | Some client =>
      match AsyncClient_aclose env client with
      | None =>
          cleanup env self =
            (Return (),
             set_logger
               (logger self ++
                [Log INFO [Text "Closing HTTP client..."];
                 Log INFO [Text "HTTP client closed successfully"]])
               (set_api_client (Some (AsyncClient.aclose client)) self)) ∧
          AsyncClient.is_closed (AsyncClient.aclose client) = true
      | Some e =>
          cleanup env self =
            (Raise e,
             set_logger
               (logger self ++ [Log INFO [Text "Closing HTTP client..."]])
               self)
      end
  end.
Proof.
  unfold cleanup, aclose_api_client. unfold_M.
  destruct self as [cfg lg [client|] sp rt bu ids tm]; simpl; [|done].
  destruct (AsyncClient_aclose env client); simpl; [done|].
  split; [|done]. by rewrite <- app_assoc.
Qed.

(** X11.  After a [build] that returned a server, the factory's client is
    the one the server was given, and it is open.  [cleanup] then awaits its
    [aclose]: when that returns, the client is closed and both records of the
    closing are logged; when it raises, the exception comes out of [cleanup]
    and the second record is not logged. *)
Theorem cleanup_after_build self srv self' :
  build env self = (Return srv, self') →
  api_client self' = Some (FastMCP.client srv) ∧
  AsyncClient.is_closed (FastMCP.client srv) = false ∧
  match AsyncClient_aclose env (FastMCP.client srv) with
  | None =>
      ∃ self'',
        cleanup env self' = (Return (), self'') ∧
        api_client self'' = Some (AsyncClient.aclose (FastMCP.client srv)) ∧
        logger self'' =
          logger self' ++
          [Log INFO [Text "Closing HTTP client..."];
           Log INFO [Text "HTTP client closed successfully"]]
  | Some e =>
      ∃ self'',
        cleanup env self' = (Raise e, self'') ∧
        api_client self'' = Some (FastMCP.client srv) ∧
        logger self'' = logger self' ++ [Log INFO [Text "Closing HTTP client..."]]
  end.
Proof.
  intros H.
  apply build_Return_iff, build_steps_Return_iff in H
    as (mappings & s1 & s2 & s3 & s4 & s5 & H1 & H2 & H3 & H4 & H5 & H6).
  apply create_api_client_Return_inv in H4 as (url' & handler & _ & _ & _ & ->).
  apply create_mcp_server_Return_inv in H5
    as (spec' & routes' & client & route_maps & _ & _ & _ & _
        & Hclient & _ & _ & -> & l4 & ->).
  apply transform_tools_Return_inv in H6 as (routes'' & _ & _ & _ & ->).
  simpl in Hclient. injection Hclient as <-.
  split; [reflexivity|]. split; [reflexivity|].
  match goal with
  | |- context [cleanup env ?st] => pose proof (cleanup_closes st) as Hclean
  end.
  simpl in Hclean. simpl.
  destruct (AsyncClient_aclose env _).
  - eexists. split; [exact Hclean|]. by split.
  - destruct Hclean as [Hclean _]. eexists. split; [exact Hclean|]. by split.
Qed.

(** ** [utils.create_api_client] *)

(** X12.  The client [utils.create_api_client] returns has the given base
    URL, a timeout of 30.0 seconds and no [auth] handler.  Its headers are
    "Accept" and "User-Agent" with their fixed values and, exactly when the
    environment variable DATA_INCLUSION_API_KEY is set to a non-empty string,
    "Authorization" with "Bearer " followed by that string; an empty variable
    counts as unset. *)
Theorem utils_client_headers (url : string) out client out' :
  utils.create_api_client env url out = (Return client, out') →
  AsyncClient.base_url client = JStr url ∧
  AsyncClient.timeout client = 30%Q ∧
  AsyncClient.auth client = None ∧
  AsyncClient.is_closed client = false ∧
  ∀ h,
    AsyncClient.headers client !! h =
      if String.eqb h "Accept" then Some "application/json"
      else if String.eqb h "User-Agent" then Some "DataInclusion-MCP-Server/1.0"
      else if String.eqb h "Authorization" then
        match getenv env "DATA_INCLUSION_API_KEY" with
        | Some key => if String.eqb key "" then None else Some ("Bearer " +:+ key)
        | None => None
        end
      else None.
Proof.
  unfold utils.create_api_client, utils.print. unfold_M.
  destruct (getenv env "DATA_INCLUSION_API_KEY") as [key|]; simpl.
  - destruct (String.eqb_spec key "") as [->|Hkey]; simpl.
    + destruct (AsyncClient_init env _); [discriminate|].
      intros [= <- <-]. simpl. repeat split. intros h.
      destruct (String.eqb_spec h "Accept") as [->|?];
        [by rewrite lookup_insert_eq|].
      rewrite lookup_insert_ne by done.
      destruct (String.eqb_spec h "User-Agent") as [->|?];
        [by rewrite lookup_insert_eq|].
      rewrite lookup_insert_ne by done. rewrite lookup_empty.
      by destruct (String.eqb h "Authorization").
    + destruct (AsyncClient_init env _); [discriminate|].
      intros [= <- <-]. simpl. repeat split. intros h.
      destruct (String.eqb_spec h "Accept") as [->|?];
        [by rewrite lookup_insert_eq|].
      rewrite lookup_insert_ne by done.
      destruct (String.eqb_spec h "User-Agent") as [->|?];
        [by rewrite lookup_insert_eq|].
      rewrite lookup_insert_ne by done.
      destruct (String.eqb_spec h "Authorization") as [->|?];
        [by rewrite lookup_insert_eq|].
      by rewrite lookup_insert_ne.
  - destruct (AsyncClient_init env _); [discriminate|].
    intros [= <- <-]. simpl. repeat split. intros h.
    destruct (String.eqb_spec h "Accept") as [->|?];
      [by rewrite lookup_insert_eq|].
    rewrite lookup_insert_ne by done.
    destruct (String.eqb_spec h "User-Agent") as [->|?];
      [by rewrite lookup_insert_eq|].
    rewrite lookup_insert_ne by done. rewrite lookup_empty.
    by destruct (String.eqb h "Authorization").
Qed.

(** The characters of a string, put together again, are the string. *)
Lemma concat_code_points (s : string) : utils.concat (utils.code_points s) = s.
Proof.
  induction s as [|b rest IH]; simpl; [done|].
  destruct (utils.code_points rest) as [|c cs]; simpl in *.
  - by rewrite <- IH.
  - destruct (utils.starts_with_continuation c); simpl; by rewrite <- IH.
Qed.

Lemma concat_app (l1 l2 : list string) :
  utils.concat (l1 ++ l2) = utils.concat l1 +:+ utils.concat l2.
Proof.
  induction l1 as [|c l1 IH]; simpl; [done|].
  change (c +:+ utils.concat (l1 ++ l2)
          = (c +:+ utils.concat l1) +:+ utils.concat l2).
  rewrite IH. clear IH.
  induction c as [|b c IHc]; simpl; [done|].
  change (String b (c +:+ (utils.concat l1 +:+ utils.concat l2))
          = String b ((c +:+ utils.concat l1) +:+ utils.concat l2)).
  by rewrite IHc.
Qed.

(** [s[-4:]] is the end of [s], of four characters or of all of them. *)
Lemma last4_spec (key : string) :
  ∃ hidden shown : list string,
    utils.code_points key = hidden ++ shown ∧
    utils.last4 key = utils.concat shown ∧
    key = utils.concat hidden +:+ utils.last4 key ∧
    length hidden = length (utils.code_points key) - 4 ∧
    length shown = length (utils.code_points key) `min` 4.
Proof.
  unfold utils.last4.
  generalize (concat_code_points key).
  generalize (utils.code_points key). intros cs Hcs.
  exists (take (length cs - 4) cs), (drop (length cs - 4) cs).
  split; [by rewrite take_drop|]. split; [done|]. split.
  - by rewrite <- concat_app, take_drop.
  - rewrite length_take, length_drop. split; lia.
Qed.

(** X13.  What [utils.create_api_client] prints of the API key.  With a
    non-empty key it prints one line, which ends with the last four
    characters (code points) of the key between "***" and ")": the characters
    before them are not printed, and a key of four characters or fewer is
    printed whole.  Without a key (unset or empty) it prints its three fixed
    lines of warning.  The lines are printed whether or not the client can
    then be constructed. *)
Theorem api_key_disclosure (url : string) out :
  match getenv env "DATA_INCLUSION_API_KEY" with
  | Some (String a rest as key) =>
      (utils.create_api_client env url out).2 =
        out ++ ["✅ Using DATA_INCLUSION_API_KEY from environment variable (key: ***"
                +:+ utils.last4 key +:+ ")"] ∧
      ∃ hidden shown : list string,
        utils.code_points key = hidden ++ shown ∧
        utils.last4 key = utils.concat shown ∧
        key = utils.concat hidden +:+ utils.last4 key ∧
        length hidden = length (utils.code_points key) - 4 ∧
        length shown = length (utils.code_points key) `min` 4
  | _ =>
      (utils.create_api_client env url out).2 =
        out ++
        ["⚠️  Warning: DATA_INCLUSION_API_KEY environment variable not set.";
         "   Some API endpoints may be publicly accessible, but authenticated endpoints will fail.";
         "   Please set DATA_INCLUSION_API_KEY in your .env file if you have an API key."]
  end.
Proof.
  unfold utils.create_api_client, utils.print. unfold_M.
  destruct (getenv env "DATA_INCLUSION_API_KEY") as [[|a rest]|].
  - simpl. destruct (AsyncClient_init env _); simpl; by rewrite <- !app_assoc.
  - split; [simpl; by destruct (AsyncClient_init env _)|].
    apply last4_spec.
  - simpl. destruct (AsyncClient_init env _); simpl; by rewrite <- !app_assoc.
Qed.

(** The last four characters of a key with characters of two and three
    bytes. *)
Example last4_code_points :
  utils.code_points "abcdé€" = ["a"; "b"; "c"; "d"; "é"; "€"] ∧
  utils.last4 "abcdé€" = "cdé€" ∧
  utils.last4 "abc" = "abc".
Proof. repeat split. Qed.

(** ** [utils.inspect_mcp_components] *)

Lemma sorted_spec (l : list string) :
  Sorted String.le (utils.sorted l) ∧ utils.sorted l ≡ₚ l.
Proof.
  unfold utils.sorted. split.
  - apply (Sorted_merge_sort String.le).
  - apply merge_sort_Permutation.
Qed.

(** The sorted list depends on the elements only, not on their order. *)
Lemma sorted_Permutation (l1 l2 : list string) :
  l1 ≡ₚ l2 → utils.sorted l1 = utils.sorted l2.
Proof.
  intros Hperm.
  destruct (sorted_spec l1) as [Hs1 Hp1], (sorted_spec l2) as [Hs2 Hp2].
  apply (Sorted_unique String.le); [done..|].
  by rewrite Hp1, Hp2.
Qed.

Lemma print_components_run found none d out :
  utils.print_components found none d out =
    (Return (),
     out ++ [pretty (length d) +:+ found;
             match d with
             | _ :: _ => "  Names: " +:+ utils.join ", " (utils.sorted (utils.names_of d))
             | [] => none
             end]).
Proof.
  unfold utils.print_components, utils.print. unfold_M.
  destruct d; simpl; by rewrite <- app_assoc.
Qed.

Lemma print_components_Permutation found none d1 d2 out :
  d1 ≡ₚ d2 →
  utils.print_components found none d1 out
  = utils.print_components found none d2 out.
Proof.
  intros Hperm. rewrite !print_components_run.
  rewrite (Permutation_length Hperm).
  destruct d1 as [|x1 d1], d2 as [|x2 d2]; try done.
  - by apply Permutation_nil_cons in Hperm.
  - symmetry in Hperm. by apply Permutation_nil_cons in Hperm.
  - assert (E : utils.sorted (utils.names_of (x1 :: d1))
                 = utils.sorted (utils.names_of (x2 :: d2))).
    { apply sorted_Permutation. unfold utils.names_of. by rewrite Hperm. }
    by rewrite E.
Qed.

(** X14.  When the server answers the three requests,
    [inspect_mcp_components] returns after printing eight lines: the opening
    line; for the tools, the resources and the resource templates in turn,
    the number of entries of the dictionary and then either the text that
    there is none, for an empty dictionary, or the names of its components
    that have one, in ascending order and separated by ", "; and the closing
    line.  The number counts the components without a name too. *)
Theorem inspect_report (registry : Registry AuthHandler) srv out tools
    resources templates :
  get_tools registry srv = Return tools →
  get_resources registry srv = Return resources →
  get_resource_templates registry srv = Return templates →
  let names_line (none : string) (d : list (string * Component.t)) line :=
    match d with
    | [] => line = none
    | _ :: _ =>
        ∃ names,
          line = "  Names: " +:+ utils.join ", " names ∧
          Sorted String.le names ∧
          names ≡ₚ omap (λ item, Component.name item.2) d
    end in
  ∃ tool_line resource_line template_line,
    utils.inspect_mcp_components registry srv out =
      (Return (),
       out ++
       [utils.newline +:+ "--- Inspecting MCP Components ---";
        pretty (length tools) +:+ " Tool(s) found:";
        tool_line;
        pretty (length resources) +:+ " Resource(s) found:";
        resource_line;
        pretty (length templates) +:+ " Resource Template(s) found:";
        template_line;
        "--- End of MCP Components Inspection ---" +:+ utils.newline]) ∧
    names_line "  No tools generated." tools tool_line ∧
    names_line "  No resources generated." resources resource_line ∧
    names_line "  No resource templates generated." templates template_line.
Proof.
  intros Htools Hresources Htemplates names_line.
  assert (Hline : ∀ none d,
            names_line none d
              match d with
              | _ :: _ => "  Names: " +:+ utils.join ", " (utils.sorted (utils.names_of d))
              | [] => none
              end).
  { intros none [|x d]; simpl; [done|].
    eexists. split; [reflexivity|]. apply sorted_spec. }
  eexists _, _, _. split; [|repeat split; apply Hline].
  unfold utils.inspect_mcp_components.
  rewrite (bind_run _ _ out () (out ++ [utils.newline +:+ "--- Inspecting MCP Components ---"]) eq_refl).
  unfold lift at 1 2 3. unfold mbind at 1 2 3, M_bind at 1 2 3.
  rewrite Htools, Hresources, Htemplates.
  rewrite (bind_run _ _ _ _ _ (print_components_run _ _ tools _)).
  rewrite (bind_run _ _ _ _ _ (print_components_run _ _ resources _)).
  rewrite (bind_run _ _ _ _ _ (print_components_run _ _ templates _)).
  unfold utils.print, modify. by rewrite <- !app_assoc.
Qed.

(** X15.  What [inspect_mcp_components] prints does not depend on the order
    of the entries in the dictionaries: two servers whose answers hold the
    same entries in different orders give the same lines. *)
Theorem inspect_order_independent (registry1 registry2 : Registry AuthHandler)
    srv1 srv2 out tools1 tools2 resources1 resources2 templates1 templates2 :
  get_tools registry1 srv1 = Return tools1 →
  get_resources registry1 srv1 = Return resources1 →
  get_resource_templates registry1 srv1 = Return templates1 →
  get_tools registry2 srv2 = Return tools2 →
  get_resources registry2 srv2 = Return resources2 →
  get_resource_templates registry2 srv2 = Return templates2 →
  tools1 ≡ₚ tools2 → resources1 ≡ₚ resources2 → templates1 ≡ₚ templates2 →
  utils.inspect_mcp_components registry1 srv1 out
  = utils.inspect_mcp_components registry2 srv2 out.
Proof.
  intros Ht1 Hr1 Hp1 Ht2 Hr2 Hp2 Ht Hr Hp.
  unfold utils.inspect_mcp_components.
  rewrite !(bind_run _ _ out () (out ++ [utils.newline +:+ "--- Inspecting MCP Components ---"]) eq_refl).
  unfold lift. unfold mbind at 1 2 3, M_bind at 1 2 3.
  rewrite Ht1, Hr1, Hp1.
  symmetry. unfold mbind at 1 2 3, M_bind at 1 2 3.
  rewrite Ht2, Hr2, Hp2.
  rewrite !(bind_run _ _ _ _ _ (print_components_run _ _ _ _)).
  rewrite (Permutation_length Ht), (Permutation_length Hr), (Permutation_length Hp).
  pose proof (print_components_Permutation "" "  No tools generated." _ _ [] Ht) as Et.
  pose proof (print_components_Permutation "" "  No resources generated." _ _ [] Hr) as Er.
  pose proof (print_components_Permutation "" "  No resource templates generated." _ _ [] Hp) as Ep.
  rewrite !print_components_run in Et, Er, Ep. simpl in Et, Er, Ep.
  injection Et as _ Et. injection Er as _ Er. injection Ep as _ Ep.
  by rewrite Et, Er, Ep.
Qed.

(** X16.  The three requests come before any report: when one of them
    raises, [inspect_mcp_components] raises the same exception having printed
    only its opening line, also when the earlier requests were answered. *)
Theorem inspect_request_failure (registry : Registry AuthHandler) srv out e :
  get_tools registry srv = Raise e ∨
  (∃ tools,
     get_tools registry srv = Return tools ∧
     (get_resources registry srv = Raise e ∨
      ∃ resources,
        get_resources registry srv = Return resources ∧
        get_resource_templates registry srv = Raise e)) →
  utils.inspect_mcp_components registry srv out =
    (Raise e, out ++ [utils.newline +:+ "--- Inspecting MCP Components ---"]).
Proof.
  intros H. unfold utils.inspect_mcp_components.
  rewrite (bind_run _ _ out () (out ++ [utils.newline +:+ "--- Inspecting MCP Components ---"]) eq_refl).
  unfold lift. unfold mbind at 1 2 3, M_bind at 1 2 3.
  destruct H as [->|(tools & -> & [->|(resources & -> & ->)])]; reflexivity.
Qed.

End Invariants.

(** ** The sample deployment, further runs *)

(** The state after the sample build. *)
Lemma build_success_state_witness :
  ∃ (srv : FastMCP.t string) self',
    build Demo.env (Demo.factory "datainclusion" (Some "mappings.json"))
      = (Return srv, self') ∧
    FastMCP.client srv = Demo.client ∧
    api_client self' = Some Demo.client.
Proof.
  assert (∃ srv self',
            build Demo.env (Demo.factory "datainclusion" (Some "mappings.json"))
              = (Return srv, self') ∧
            api_client self' = Some Demo.client) as (srv & self' & Hrun & Hc).
  { eexists _, _. split; vm_compute; reflexivity. }
  destruct (build_success_state Demo.env _ srv self' Hrun)
    as (client & url & routes & Hclient & _ & Hsrv & _).
  exists srv, self'. split; [exact Hrun|].
  rewrite Hc in Hclient. injection Hclient as <-.
  split; [exact Hsrv|exact Hc].
Defined.

(** A specification with an empty server URL makes [build] fail. *)
Lemma build_falsy_url_witness :
  ∃ self',
    build Demo.blank_url_env (Demo.factory "datainclusion" None)
      = (Raise (Exn ValueError (Some "Base URL not determined")), self') ∧
    base_url self' = Some (JStr "").
Proof.
  assert (∃ s1,
            _load_tool_mappings Demo.blank_url_env
              (Demo.factory "datainclusion" None)
            = (Return empty_dict, s1)) as (s1 & H1).
  { eexists. vm_compute. reflexivity. }
  destruct (build_falsy_url Demo.blank_url_env _ _ s1 Demo.blank_url_doc
              (<["url" := JStr ""]> ∅) Demo.routes [] (JStr "")
              H1 eq_refl eq_refl eq_refl eq_refl eq_refl)
    as (self' & Hurl & Hbuild).
  exists self'. split; [exact Hbuild|exact Hurl].
Defined.

(** A factory with a specification but no route. *)
Lemma guards_raise_before_any_effect_witness :
  let self :=
    set_http_routes (Some []) (Demo.factory_with_spec (Some Demo.spec)) in
  _create_mcp_server Demo.env self
  = (Raise (Exn ValueError (Some "HTTP routes not loaded")), self).
Proof.
  intros self.
  destruct (guards_raise_before_any_effect Demo.env self Demo.server)
    as (_ & Hroutes & _).
  exact (Hroutes eq_refl eq_refl).
Defined.

(** A mappings file that holds a list. *)
Lemma mappings_not_a_dictionary_witness :
  (_create_mcp_server Demo.env
     (Demo.loaded_factory "datainclusion" (JArr [JStr "list_structures"]))).1
  = Raise (Exn AttributeError None).
Proof.
  destruct (mappings_not_a_dictionary Demo.env
              (Demo.loaded_factory "datainclusion" (JArr [JStr "list_structures"]))
              Demo.spec Demo.routes Demo.client
              eq_refl eq_refl eq_refl ltac:(discriminate) eq_refl
              ltac:(discriminate)) as [Hraise _].
  by rewrite (Hraise eq_refl).
Defined.

(** The sample deployment without its mappings file: nothing is a tool. *)
Lemma build_without_selected_route_witness :
  ∃ (srv : FastMCP.t string) self',
    build Demo.env (Demo.factory "datainclusion" (Some "nowhere.json"))
      = (Return srv, self') ∧
    FastMCP.route_maps srv = [RouteMap.Make None None RouteMap.EXCLUDE].
Proof.
  assert (∃ srv self',
            build Demo.env (Demo.factory "datainclusion" (Some "nowhere.json"))
              = (Return srv, self')) as (srv & self' & Hrun).
  { eexists _, _. vm_compute. reflexivity. }
  assert (∃ s1,
            _load_tool_mappings Demo.env
              (Demo.factory "datainclusion" (Some "nowhere.json"))
            = (Return (JObj ∅), s1)) as (s1 & H1).
  { eexists. vm_compute. reflexivity. }
  exists srv, self'. split; [exact Hrun|].
  apply (build_without_selected_route Demo.env
           (Demo.factory "datainclusion" (Some "nowhere.json")) ∅ s1
           Demo.spec Demo.routes srv self' eq_refl H1 eq_refl); [|exact Hrun].
  intros r Hr. unfold op_id_in. destruct (HTTPRoute.operation_id r); [|done].
  apply bool_decide_eq_false. set_solver.
Defined.

(** [cleanup] after the sample build. *)
Lemma cleanup_after_build_witness :
  ∃ (srv : FastMCP.t string) self' self'',
    build Demo.env (Demo.factory "datainclusion" (Some "mappings.json"))
      = (Return srv, self') ∧
    cleanup Demo.env self' = (Return (), self'') ∧
    api_client self'' = Some (AsyncClient.aclose (FastMCP.client srv)).
Proof.
  assert (∃ srv self',
            build Demo.env (Demo.factory "datainclusion" (Some "mappings.json"))
              = (Return srv, self')) as (srv & self' & Hrun).
  { eexists _, _. vm_compute. reflexivity. }
  destruct (cleanup_after_build Demo.env _ srv self' Hrun)
    as (_ & _ & self'' & Hclean & Hclosed & _).
  by exists srv, self', self''.
Defined.

(** [cleanup] when closing the client fails: the exception comes out and the
    client is not marked closed. *)
Example cleanup_closing_fails :
  let self := Demo.loaded_factory "datainclusion" Demo.table in
  cleanup Demo.leaking_env self =
    (Raise (Exn OSError (Some "connection reset")),
     set_logger [Log INFO [Text "Closing HTTP client..."]] self).
Proof. reflexivity. Qed.

(** The client of [utils.create_api_client] with an API key. *)
Lemma utils_client_headers_witness :
  ∃ client out,
    utils.create_api_client Demo.keyed_env "https://api.example.org" []
      = (Return client, out) ∧
    AsyncClient.headers client !! "Authorization" = Some "Bearer secret-1234" ∧
    AsyncClient.headers client !! "X-Api-Key" = None.
Proof.
  assert (∃ client out,
            utils.create_api_client Demo.keyed_env "https://api.example.org" []
              = (Return client, out)) as (client & out & Hrun).
  { eexists _, _. vm_compute. reflexivity. }
  destruct (utils_client_headers Demo.keyed_env _ _ _ _ Hrun)
    as (_ & _ & _ & _ & Hheaders).
  exists client, out. split; [exact Hrun|].
  by rewrite !Hheaders.
Defined.

(** The report on the sample components. *)
Lemma inspect_report_witness :
  (utils.inspect_mcp_components Demo.registry Demo.server []).1 = Return () ∧
  length (utils.inspect_mcp_components Demo.registry Demo.server []).2 = 8.
Proof.
  destruct (inspect_report Demo.registry Demo.server [] Demo.tools
              Demo.resources [] eq_refl eq_refl eq_refl)
    as (lt & lr & ltp & Hrun & _).
  by rewrite Hrun.
Defined.

Lemma inspect_order_independent_witness :
  utils.inspect_mcp_components Demo.registry Demo.server []
  = utils.inspect_mcp_components Demo.reordered_registry Demo.server [].
Proof.
  apply (inspect_order_independent Demo.registry Demo.reordered_registry
           Demo.server Demo.server [] Demo.tools (reverse Demo.tools)
           Demo.resources Demo.resources [] []
           eq_refl eq_refl eq_refl eq_refl eq_refl eq_refl);
    [apply Permutation_sym, reverse_Permutation|done|done].
Defined.

Lemma inspect_request_failure_witness :
  utils.inspect_mcp_components Demo.failing_registry Demo.server []
  = (Raise (Exn RuntimeError (Some "no resources")),
     [utils.newline +:+ "--- Inspecting MCP Components ---"]).
Proof.
  apply (inspect_request_failure Demo.failing_registry Demo.server []).
  right. exists Demo.tools. split; [reflexivity|]. by left.
Defined.

(** The lines of the report on the sample components. *)
Example inspect_sample_report :
  (utils.inspect_mcp_components Demo.registry Demo.server []).2
  = [ utils.newline +:+ "--- Inspecting MCP Components ---";
      "3 Tool(s) found:";
      "  Names: get_service_details, list_all_structures";
      "1 Resource(s) found:";
      "  Names: documentation";
      "0 Resource Template(s) found:";
      "  No resource templates generated.";
      "--- End of MCP Components Inspection ---" +:+ utils.newline ].
Proof. vm_compute. reflexivity. Qed.
